(** * Job_portal: the OTP / verification-token authentication core

    A shallow embedding of [accounts/services.py], [accounts/utils.py],
    [accounts/serializers.py], [accounts/views.py] (the token-exchange
    flow) and of the parts of [accounts/models.py] and [settings.py]
    they rely on, followed by the properties of the specification
    that were checked against it.  The verification flow that keeps the
    OTP on the user row, the role rules of profile updates and the
    profile completion percentage are embedded as well, with properties
    read off the code.

    Python state (Django's cache, the user table, the mail outbox, the
    clock and the random sources) is gathered in one [world] record and
    threaded through a state-and-exception monad: a raised exception
    keeps the effects that happened before it, as in Python. *)

From Stdlib Require Import Ascii QArith Lqa.
From Stdlib Require PrimFloat FloatOps SpecFloat Uint63.
From stdpp Require Import gmap strings list fin_maps pretty.

Open Scope string_scope.

(** ** Values and exceptions *)

(** The payloads that travel in responses and in [ValidationError]s:
    Python strings, lists, and dicts with string keys (in source
    order). *)
#[warnings="-register-all"]
Inductive data :=
  | DStr (s : string)
  | DList (items : list data)
  | DDict (kvs : list (string * data)).

Definition dict_get (k : string) (d : data) : option data :=
  match d with
  | DDict kvs => snd <$> List.find (λ kv, bool_decide (fst kv = k)) kvs
  | _ => None
  end.

Inductive exn :=
  | ValidationError (detail : data)
  | ValueError (msg : string)
  | IntegrityError.

Inductive result (A : Type) :=
  | Ok (a : A)
  | Raise (e : exn).
Arguments Ok {A} a.
Arguments Raise {A} e.

(** ** The user model ([accounts/models.py])

    The columns that the code embedded here reads or writes.
    [created_at] ([auto_now_add]) and [updated_at] ([auto_now]) are
    null until the row is saved. *)

Record User := mkUser {
  id : option Z;
  email : string;
  password : string;
  first_name : string;
  last_name : string;
  role : string;
  is_active : bool;
  is_staff : bool;
  is_superuser : bool;
  is_verified : bool;
  otp : option string;
  otp_created_at : option Q;
  created_at : option Q;
  updated_at : option Q
}.

(** Keyword arguments ([**extra_fields]): a dict from field names to
    values. *)
Inductive field_value :=
  | FStr (s : string)
  | FBool (b : bool).

Definition kw_str (kw : gmap string field_value) (k : string) (default : string) : string :=
  match kw !! k with Some (FStr s) => s | _ => default end.

Definition kw_bool (kw : gmap string field_value) (k : string) (default : bool) : bool :=
  match kw !! k with Some (FBool b) => b | _ => default end.

(** [dict.setdefault(k, v)]. *)
Definition setdefault (k : string) (v : field_value) (kw : gmap string field_value)
  : gmap string field_value :=
  match kw !! k with Some _ => kw | None => <[k := v]> kw end.

(** [self.model(email=email, **extra_fields)]: every field not named in
    the keyword arguments takes the default declared on the model
    ([role] 'job_seeker', [is_verified] False, [otp] null) or on
    Django's [AbstractUser] ([is_active] True, [is_staff] and
    [is_superuser] False).  The row has no primary key before it is
    saved and no password before [set_password]. *)
Definition User_new (email : string) (kw : gmap string field_value) : User :=
  {| id := None;
     email := email;
     password := "";
     first_name := kw_str kw "first_name" "";
     last_name := kw_str kw "last_name" "";
     role := kw_str kw "role" "job_seeker";
     is_active := kw_bool kw "is_active" true;
     is_staff := kw_bool kw "is_staff" false;
     is_superuser := kw_bool kw "is_superuser" false;
     is_verified := kw_bool kw "is_verified" false;
     otp := None;
     otp_created_at := None;
     created_at := None;
     updated_at := None |}.

Definition with_password (u : User) (h : string) : User :=
  {| id := id u; email := email u; password := h;
     first_name := first_name u; last_name := last_name u; role := role u;
     is_active := is_active u; is_staff := is_staff u;
     is_superuser := is_superuser u; is_verified := is_verified u;
     otp := otp u; otp_created_at := otp_created_at u;
     created_at := created_at u; updated_at := updated_at u |}.

Definition with_id (u : User) (pk : Z) : User :=
  {| id := Some pk; email := email u; password := password u;
     first_name := first_name u; last_name := last_name u; role := role u;
     is_active := is_active u; is_staff := is_staff u;
     is_superuser := is_superuser u; is_verified := is_verified u;
     otp := otp u; otp_created_at := otp_created_at u;
     created_at := created_at u; updated_at := updated_at u |}.

(** What [pre_save] of the two date columns does when the row is
    written at time [now]: [updated_at] ([auto_now]) is stamped at every
    save, [created_at] ([auto_now_add]) when the row is added. *)
Definition pre_save (add : bool) (now : Q) (u : User) : User :=
  {| id := id u; email := email u; password := password u;
     first_name := first_name u; last_name := last_name u; role := role u;
     is_active := is_active u; is_staff := is_staff u;
     is_superuser := is_superuser u; is_verified := is_verified u;
     otp := otp u; otp_created_at := otp_created_at u;
     created_at := if add then Some now else created_at u;
     updated_at := Some now |}.

(** ** The world *)

Record mail := mkMail {
  subject : string;
  message : string;
  from_email : string;
  recipient_list : list string
}.

(** - [cache]: Django's cache (the ephemeral store): each key holds a
      value and the time at which it expires;
    - [users]: the user table, keyed by its unique [email] column;
    - [outbox]: what [send_mail] has delivered (settings.py selects the
      console backend, which cannot fail);
    - [clock]: [time.time()], in seconds;
    - [rand_calls], [uuid_calls]: how many numbers were drawn from
      [random] and how many UUIDs from [uuid.uuid4]. *)
Record world := mkWorld {
  cache : gmap string (string * Q);
  users : gmap string User;
  outbox : list mail;
  clock : Q;
  rand_calls : nat;
  uuid_calls : nat
}.

Definition set_cache (c : gmap string (string * Q)) (w : world) : world :=
  {| cache := c; users := users w; outbox := outbox w; clock := clock w;
     rand_calls := rand_calls w; uuid_calls := uuid_calls w |}.

Definition set_users (us : gmap string User) (w : world) : world :=
  {| cache := cache w; users := us; outbox := outbox w; clock := clock w;
     rand_calls := rand_calls w; uuid_calls := uuid_calls w |}.

Definition set_outbox (o : list mail) (w : world) : world :=
  {| cache := cache w; users := users w; outbox := o; clock := clock w;
     rand_calls := rand_calls w; uuid_calls := uuid_calls w |}.

Definition set_rand_calls (n : nat) (w : world) : world :=
  {| cache := cache w; users := users w; outbox := outbox w; clock := clock w;
     rand_calls := n; uuid_calls := uuid_calls w |}.

Definition set_uuid_calls (n : nat) (w : world) : world :=
  {| cache := cache w; users := users w; outbox := outbox w; clock := clock w;
     rand_calls := rand_calls w; uuid_calls := n |}.

(** Time passes between two requests. *)
Definition at_time (t : Q) (w : world) : world :=
  {| cache := cache w; users := users w; outbox := outbox w; clock := t;
     rand_calls := rand_calls w; uuid_calls := uuid_calls w |}.

(** ** The state-and-exception monad *)

Definition M (A : Type) : Type := world → result A * world.

#[global] Instance M_ret : MRet M := λ A a w, (Ok a, w).

#[global] Instance M_bind : MBind M := λ A B f m w,
  match m w with
  | (Ok a, w') => f a w'
  | (Raise e, w') => (Raise e, w')
  end.

Definition raise {A : Type} (e : exn) : M A := λ w, (Raise e, w).

Definition gets {A : Type} (f : world → A) : M A := λ w, (Ok (f w), w).

Definition modify (f : world → world) : M unit := λ w, (Ok tt, f w).

(** ** Collaborators outside the repository *)

(** The random sources, as oracles: [rand_raw n] decides the [n]-th
    number drawn from [random], [uuid_raw n] is the text of the [n]-th
    [uuid.uuid4()]. *)
Class RandomSource := {
  rand_raw : nat → Z;
  uuid_raw : nat → string
}.

(** Django's password hashers, e-mail normalisation and e-mail syntax
    validator ([django.core.validators.EmailValidator], whether it
    accepts the text), and SimpleJWT's token pair.  The only law used
    is that a hash verifies the password it was made from. *)
Class Django := {
  make_password : string → string;
  check_password : string → string → bool;
  check_make_password : ∀ raw, check_password raw (make_password raw) = true;
  normalize_email : string → string;
  EmailValidator : string → bool;
  refresh_for_user : User → string;
  access_token : User → string
}.

(** ** Django's cache API ([django.core.cache.cache])

    Modelled from the spec: the ephemeral key-value store (section 4.1)
    is Django's cache backend, which is not part of the repository.
    [set] overwrites the entry and makes it expire [timeout] seconds
    later; [get] answers [None] for a missing or expired key; [delete]
    removes the entry if there is one. *)
Definition has_expired (now : Q) (entry : string * Q) : bool :=
  Qle_bool (snd entry) now.

Definition cache_lookup (c : gmap string (string * Q)) (now : Q) (key : string)
  : option string :=
  match c !! key with
  | Some entry => if has_expired now entry then None else Some (fst entry)
  | None => None
  end.

Definition cache_get (key : string) : M (option string) :=
  gets (λ w, cache_lookup (cache w) (clock w) key).

Definition cache_set (key value : string) (timeout : Q) : M unit :=
  modify (λ w, set_cache (<[key := (value, (clock w + timeout)%Q)]> (cache w)) w).

Definition cache_delete (key : string) : M unit :=
  modify (λ w, set_cache (delete key (cache w)) w).

(** Python truthiness of what [cache.get] returns: [None] and the empty
    string are false. *)
Definition truthy (v : option string) : bool :=
  match v with
  | Some s => negb (bool_decide (s = ""))
  | None => false
  end.

(** [cached == x] for [cached] a string or [None] and [x] a string. *)
Definition py_eq (v : option string) (x : string) : bool :=
  match v with
  | Some s => bool_decide (s = x)
  | None => false
  end.

(** ** [accounts/utils.py] *)

(** [random.randint(a, b)]: the next draw of the oracle, brought into
    the range from [a] to [b]. *)
Definition randint `{RandomSource} (a b : Z) : M Z :=
  n ← gets rand_calls;
  modify (set_rand_calls (S n));;
  mret (a + rand_raw n `mod` (b - a + 1))%Z.

(** ["".join([str(random.randint(0, 9)) for _ in range(length)])]. *)
Fixpoint generate_otp `{RandomSource} (length : nat) : M string :=
  match length with
  | O => mret ""
  | S length' =>
      d ← randint 0 9;
      rest ← generate_otp length';
      mret (pretty d +:+ rest)
  end.

(** A text made of the characters 0 to 9 only. *)
Definition is_digit (c : ascii) : bool :=
  (48 <=? nat_of_ascii c)%nat && (nat_of_ascii c <=? 57)%nat.

Fixpoint all_digits (s : string) : bool :=
  match s with
  | EmptyString => true
  | String c s' => is_digit c && all_digits s'
  end.

(** ** [accounts/services.py] *)

Definition OTP_EXPIRE_SECONDS : Q := 300.

(** [settings.DEFAULT_FROM_EMAIL]: settings.py leaves Django's default. *)
Definition DEFAULT_FROM_EMAIL : string := "webmaster@localhost".

Definition send_mail (subject message from_email : string) (recipient_list : list string)
  : M unit :=
  modify (λ w, set_outbox (outbox w ++ [mkMail subject message from_email recipient_list]) w).

Definition ascii_upper (c : ascii) : ascii :=
  let n := nat_of_ascii c in
  if (97 <=? n)%nat && (n <=? 122)%nat then ascii_of_nat (n - 32) else c.

Definition ascii_lower (c : ascii) : ascii :=
  let n := nat_of_ascii c in
  if (65 <=? n)%nat && (n <=? 90)%nat then ascii_of_nat (n + 32) else c.

Fixpoint str_lower (s : string) : string :=
  match s with
  | EmptyString => EmptyString
  | String c s' => String (ascii_lower c) (str_lower s')
  end.

(** [str.capitalize()], on ASCII text. *)
Definition capitalize (s : string) : string :=
  match s with
  | EmptyString => EmptyString
  | String c s' => String (ascii_upper c) (str_lower s')
  end.

Definition otp_key (purpose email : string) : string :=
  "otp:" +:+ purpose +:+ ":" +:+ email.

Definition send_otp_email `{RandomSource} (email purpose : string) : M string :=
  otp ← generate_otp 6;
  let cache_key := otp_key purpose email in
  cache_set cache_key otp OTP_EXPIRE_SECONDS;;
  let subject := "Your " +:+ capitalize purpose +:+ " OTP Code" in
  let message := "Your OTP code is: " +:+ otp +:+ ". It is valid for 5 minutes." in
  let from_email := DEFAULT_FROM_EMAIL in
  send_mail subject message from_email [email];;
  mret otp.

Definition verify_otp (email otp purpose : string) : M bool :=
  let cache_key := otp_key purpose email in
  cached_otp ← cache_get cache_key;
  if truthy cached_otp && py_eq cached_otp otp then
    cache_delete cache_key;;
    mret true
  else
    mret false.

(** ** [accounts/models.py]: the manager and the methods of [User] *)

(** [user.set_password(raw)]. *)
Definition set_password `{Django} (u : User) (raw : string) : User :=
  with_password u (make_password raw).

(** [user.check_password(raw)]. *)
Definition user_check_password `{Django} (u : User) (raw : string) : bool :=
  check_password raw (password u).

(** [timezone.now()], in seconds like [time.time()]. *)
Definition timezone_now : M Q := gets clock.

(** [user.save()].  A row without primary key is inserted: the unique
    constraint on [email] refuses a second row with the same address,
    and the key is the next integer (no row is ever deleted here).  A
    row that has a key is written back in place.  Either way the date
    columns are stamped first, on the instance as well. *)
Definition save (u : User) : M User :=
  us ← gets users;
  now ← timezone_now;
  match id u with
  | None =>
      match us !! email u with
      | Some _ => raise IntegrityError
      | None =>
          let u' := with_id (pre_save true now u) (Z.of_nat (size us) + 1) in
          modify (set_users (<[email u := u']> us));;
          mret u'
      end
  | Some _ =>
      let u' := pre_save false now u in
      modify (set_users (<[email u := u']> us));;
      mret u'
  end.

(** [User.objects.get(email=email)]; [None] stands for
    [User.DoesNotExist]. *)
Definition objects_get (email : string) : M (option User) :=
  gets (λ w, users w !! email).

(** What the database guarantees of the table: a row is stored under
    its own e-mail and has a primary key. *)
Definition table_ok (us : gmap string User) : Prop :=
  map_Forall (λ key u, email u = key ∧ is_Some (id u)) us.

#[global] Instance table_ok_dec us : Decision (table_ok us).
Proof. unfold table_ok. apply _. Defined.

Module UserManager.

Definition _create_user `{Django} (email password : string)
    (extra_fields : gmap string field_value) : M User :=
  if bool_decide (email = "") then
    raise (ValueError "The given email must be set")
  else
    let email := normalize_email email in
    let user := User_new email extra_fields in
    let user := set_password user password in
    save user.

Definition create_user `{Django} (email password : string)
    (extra_fields : gmap string field_value) : M User :=
  let extra_fields := setdefault "is_staff" (FBool false) extra_fields in
  let extra_fields := setdefault "is_superuser" (FBool false) extra_fields in
  _create_user email password extra_fields.

(** [v is not True] for what [extra_fields.get(k)] returns. *)
Definition is_not_True (v : option field_value) : bool :=
  match v with
  | Some (FBool true) => false
  | _ => true
  end.

Definition create_superuser `{Django} (email password : string)
    (extra_fields : gmap string field_value) : M User :=
  let extra_fields := setdefault "is_staff" (FBool true) extra_fields in
  let extra_fields := setdefault "is_superuser" (FBool true) extra_fields in
  if is_not_True (extra_fields !! "is_staff") then
    raise (ValueError "Superuser must have is_staff=True.")
  else if is_not_True (extra_fields !! "is_superuser") then
    raise (ValueError "Superuser must have is_superuser=True.")
  else
    _create_user email password extra_fields.

End UserManager.

(** ** Django's [authenticate] under settings.py

    settings.py does not set [AUTHENTICATION_BACKENDS], so the only
    backend is Django's [ModelBackend]: it looks the user up by
    [USERNAME_FIELD] (the e-mail), checks the password, and then asks
    [user_can_authenticate], which rejects users whose [is_active] is
    false. *)
Module ModelBackend.

Definition user_can_authenticate (user : User) : bool := is_active user.

Definition authenticate `{Django} (username password : string) : M (option User) :=
  found ← objects_get username;
  match found with
  | None => mret None
  | Some user =>
      if user_check_password user password && user_can_authenticate user
      then mret (Some user)
      else mret None
  end.

End ModelBackend.

Definition authenticate `{Django} (email password : string) : M (option User) :=
  ModelBackend.authenticate email password.

(** ** DRF's fields ([rest_framework.fields], [rest_framework.validators])

    The field classes that [accounts/serializers.py] declares its
    fields with belong to Django REST framework, not to the repository:
    they are modelled here, with their default messages; the options
    ([min_length], [max_length], [choices], uniqueness) are those of
    the declarations.

    What a field answers for the text it is given: the list of its
    error messages, empty when the text is accepted.  The text is the
    one the field works on: a string, trimmed of surrounding white
    space; a character is one element of the string and [String.length]
    is Python's [len]. *)
Module serializers.

Definition max_length_errors (max_length : option nat) (value : string) : list string :=
  match max_length with
  | Some n =>
      if (n <? String.length value)%nat
      then ["Ensure this field has no more than " +:+ pretty n +:+ " characters."]
      else []
  | None => []
  end.

Definition min_length_errors (min_length : option nat) (value : string) : list string :=
  match min_length with
  | Some n =>
      if (String.length value <? n)%nat
      then ["Ensure this field has at least " +:+ pretty n +:+ " characters."]
      else []
  | None => []
  end.

(** [CharField(min_length=.., max_length=..)]: a blank text is refused
    before any validator runs; the validators all run and their
    messages are gathered. *)
Definition CharField (min_length max_length : option nat) (value : string) : list string :=
  if bool_decide (value = "") then ["This field may not be blank."]
  else (max_length_errors max_length value ++ min_length_errors min_length value)%list.

(** [EmailField(max_length=.., validators=..)]: a [CharField] whose
    last validator is Django's [EmailValidator]; the validators given
    to the constructor run first. *)
Definition EmailField `{Django} (max_length : option nat)
    (validators : list (string → list string)) (value : string) : list string :=
  if bool_decide (value = "") then ["This field may not be blank."]
  else
    (mjoin ((λ validator, validator value) <$> validators)
     ++ max_length_errors max_length value
     ++ (if EmailValidator value then [] else ["Enter a valid email address."]))%list.

Definition double_quote : string := String (ascii_of_nat 34) EmptyString.

(** [ChoiceField(choices=..)]. *)
Definition ChoiceField (choices : list string) (value : string) : list string :=
  if bool_decide (value ∈ choices) then []
  else [double_quote +:+ value +:+ double_quote +:+ " is not a valid choice."].

(** [UniqueValidator(queryset=User.objects.all())] on the [email]
    column, with the message of the model field. *)
Definition UniqueValidator (queryset : gmap string User) (value : string) : list string :=
  match queryset !! value with
  | Some _ => ["user with this email address already exists."]
  | None => []
  end.

(** The [errors] dict of [to_internal_value]: the fields that answered
    a message, in the order of their declaration. *)
Definition errors (fields : list (string * list string)) : list (string * data) :=
  omap (λ field,
          match snd field with
          | [] => None
          | messages => Some (fst field, DList (DStr <$> messages))
          end) fields.

(** [Serializer.to_internal_value]: the fields are all run, and the
    [ValidationError] carries every field that failed. *)
Definition run_fields {A : Type} (fields : list (string * list string)) (value : A) : M A :=
  match errors fields with
  | [] => mret value
  | failed => raise (ValidationError (DDict failed))
  end.

End serializers.

(** ** [accounts/serializers.py]

    The records below hold the fields of a request, all of them present.
    [is_valid(raise_exception=True)] first runs the declared fields
    ([to_internal_value]) and then [validate].  For
    [LoginSerializer] the embedding starts at [validate]. *)

Record OTPRequest := mkOTPRequest {
  or_email : string;
  or_purpose : string
}.

Record OTPSubmission := mkOTPSubmission {
  os_email : string;
  os_purpose : string;
  os_otp : string
}.

Record SignupData := mkSignupData {
  su_email : string;
  su_first_name : string;
  su_last_name : string;
  su_password : string;
  su_verification_token : string
}.

Record LoginData := mkLoginData {
  lg_email : string;
  lg_password : string
}.

Record ResetData := mkResetData {
  rs_email : string;
  rs_verification_token : string;
  rs_new_password : string
}.

(** The error values of the specification, as the code raises them. *)
Definition InvalidToken : exn :=
  ValidationError (DDict [("verification_token", DStr "Invalid or expired token.")]).

Definition InvalidCredentials : exn :=
  ValidationError (DStr "Invalid email or password.").

Definition AccountDisabled : exn :=
  ValidationError (DStr "User account is disabled.").

Definition UserNotFound : exn :=
  ValidationError (DDict [("email", DStr "No user found with this email.")]).

Definition verified_key (purpose token : string) : string :=
  "verified:" +:+ purpose +:+ ":" +:+ token.

Module RequestOTPSerializer.

Definition fields `{Django} (data : OTPRequest) : list (string * list string) :=
  [("email", serializers.EmailField None [] (or_email data));
   ("purpose", serializers.ChoiceField ["register"; "reset"] (or_purpose data))].

Definition to_internal_value `{Django} (data : OTPRequest) : M OTPRequest :=
  serializers.run_fields (fields data) data.

Definition is_valid `{Django} (data : OTPRequest) : M OTPRequest :=
  to_internal_value data.

End RequestOTPSerializer.

Module VerifyOTPSerializer.

Definition fields `{Django} (data : OTPSubmission) : list (string * list string) :=
  [("email", serializers.EmailField None [] (os_email data));
   ("purpose", serializers.ChoiceField ["register"; "reset"] (os_purpose data));
   ("otp", serializers.CharField None (Some 6%nat) (os_otp data))].

Definition to_internal_value `{Django} (data : OTPSubmission) : M OTPSubmission :=
  serializers.run_fields (fields data) data.

Definition is_valid `{Django} (data : OTPSubmission) : M OTPSubmission :=
  to_internal_value data.

End VerifyOTPSerializer.

Module SignupSerializer.

(** The fields of [Meta.fields], in that order.  [email], [first_name]
    and [last_name] are built from the model: [email] is unique and at
    most 254 characters long (Django's [EmailField]), the names are
    [max_length=30] and not blank.  [queryset] is the user table that
    the unique validator searches. *)
Definition fields `{Django} (queryset : gmap string User) (data : SignupData)
  : list (string * list string) :=
  [("email", serializers.EmailField (Some 254%nat)
               [serializers.UniqueValidator queryset] (su_email data));
   ("first_name", serializers.CharField None (Some 30%nat) (su_first_name data));
   ("last_name", serializers.CharField None (Some 30%nat) (su_last_name data));
   ("password", serializers.CharField (Some 6%nat) None (su_password data));
   ("verification_token", serializers.CharField None None (su_verification_token data))].

Definition to_internal_value `{Django} (data : SignupData) : M SignupData :=
  queryset ← gets users;
  serializers.run_fields (fields queryset data) data.

Definition validate (attrs : SignupData) : M SignupData :=
  let token := su_verification_token attrs in
  let email := su_email attrs in
  let cache_key := verified_key "register" token in
  cached_email ← cache_get cache_key;
  if negb (truthy cached_email) || negb (py_eq cached_email email) then
    raise InvalidToken
  else
    mret attrs.

Definition is_valid `{Django} (data : SignupData) : M SignupData :=
  attrs ← to_internal_value data;
  validate attrs.

(** After the two [pop]s, [validated_data] holds [email], [first_name]
    and [last_name]; [email] binds the positional parameter of
    [create_user] and the other two travel as [**extra_fields]. *)
Definition create `{Django} (validated_data : SignupData) : M User :=
  let password := su_password validated_data in
  UserManager.create_user (su_email validated_data) password
    {[ "first_name" := FStr (su_first_name validated_data);
       "last_name" := FStr (su_last_name validated_data) ]}.

End SignupSerializer.

Module LoginSerializer.

(** [attrs["user"] = user]: the validated data is returned together
    with the user. *)
Definition validate `{Django} (attrs : LoginData) : M (LoginData * User) :=
  let email := lg_email attrs in
  let password := lg_password attrs in
  user ← authenticate email password;
  match user with
  | None => raise InvalidCredentials
  | Some user =>
      if negb (is_active user) then raise AccountDisabled
      else mret (attrs, user)
  end.

Definition str_id (user : User) : string :=
  match id user with Some pk => pretty pk | None => "None" end.

Definition create `{Django} (validated_data : LoginData * User) : M data :=
  let user := snd validated_data in
  mret (DDict [
    ("user", DDict [
       ("id", DStr (str_id user));
       ("email", DStr (email user));
       ("first_name", DStr (first_name user));
       ("last_name", DStr (last_name user))]);
    ("refresh", DStr (refresh_for_user user));
    ("access", DStr (access_token user))]).

End LoginSerializer.

Module ResetPasswordSerializer.

Definition fields `{Django} (data : ResetData) : list (string * list string) :=
  [("email", serializers.EmailField None [] (rs_email data));
   ("verification_token", serializers.CharField None None (rs_verification_token data));
   ("new_password", serializers.CharField (Some 6%nat) None (rs_new_password data))].

Definition to_internal_value `{Django} (data : ResetData) : M ResetData :=
  serializers.run_fields (fields data) data.

Definition validate (attrs : ResetData) : M ResetData :=
  let email := rs_email attrs in
  let token := rs_verification_token attrs in
  let cache_key := verified_key "reset" token in
  cached_email ← cache_get cache_key;
  if negb (truthy cached_email) || negb (py_eq cached_email email) then
    raise InvalidToken
  else
    mret attrs.

Definition is_valid `{Django} (data : ResetData) : M ResetData :=
  attrs ← to_internal_value data;
  validate attrs.

Definition save `{Django} (validated_data : ResetData) : M User :=
  let email := rs_email validated_data in
  let password := rs_new_password validated_data in
  found ← objects_get email;
  match found with
  | None => raise UserNotFound
  | Some user =>
      let user := set_password user password in
      save user
  end.

End ResetPasswordSerializer.

(** ** [accounts/views.py] *)

Record Response := mkResponse {
  status : nat;
  body : data
}.

(** DRF's exception handling around a view method: a [ValidationError]
    becomes a 400 response carrying its detail, any other exception a
    500. *)
Definition dispatch (handler : M Response) (w : world) : Response * world :=
  match handler w with
  | (Ok r, w') => (r, w')
  | (Raise (ValidationError detail), w') => (mkResponse 400 detail, w')
  | (Raise _, w') => (mkResponse 500 (DStr "Server Error (500)"), w')
  end.

(** [str(uuid.uuid4())]. *)
Definition uuid4 `{RandomSource} : M string :=
  n ← gets uuid_calls;
  modify (set_uuid_calls (S n));;
  mret (uuid_raw n).

Module RequestOTPView.

Definition post `{RandomSource} `{Django} (request_data : OTPRequest) : M Response :=
  validated_data ← RequestOTPSerializer.is_valid request_data;
  let email := or_email validated_data in
  let purpose := or_purpose validated_data in
  send_otp_email email purpose;;
  mret (mkResponse 200 (DDict [
    ("detail", DStr ("OTP has been sent to " +:+ email +:+ ". It is valid for 5 minutes."))])).

End RequestOTPView.

Module VerifyOTPView.

Definition post `{RandomSource} `{Django} (request_data : OTPSubmission) : M Response :=
  validated_data ← VerifyOTPSerializer.is_valid request_data;
  let email := os_email validated_data in
  let otp := os_otp validated_data in
  let purpose := os_purpose validated_data in
  verified ← verify_otp email otp purpose;
  if (verified : bool) then
    token ← uuid4;
    let cache_key := verified_key purpose token in
    cache_set cache_key email 600;;
    mret (mkResponse 200 (DDict [
      ("detail", DStr "OTP verified successfully.");
      ("verification_token", DStr token)]))
  else
    mret (mkResponse 400 (DDict [("detail", DStr "Invalid or expired OTP.")])).

End VerifyOTPView.

Module SignupView.

Definition post `{Django} (request_data : SignupData) : M Response :=
  validated_data ← SignupSerializer.is_valid request_data;
  user ← SignupSerializer.create validated_data;
  mret (mkResponse 201 (DDict [
    ("user", DDict [
       ("id", DStr (LoginSerializer.str_id user));
       ("email", DStr (email user));
       ("first_name", DStr (first_name user));
       ("last_name", DStr (last_name user))]);
    ("refresh", DStr (refresh_for_user user));
    ("access", DStr (access_token user))])).

End SignupView.

Module LoginView.

Definition post `{Django} (request_data : LoginData) : M Response :=
  validated_data ← LoginSerializer.validate request_data;
  tokens ← LoginSerializer.create validated_data;
  mret (mkResponse 200 tokens).

End LoginView.

Module ResetPasswordView.

Definition post `{Django} (request_data : ResetData) : M Response :=
  validated_data ← ResetPasswordSerializer.is_valid request_data;
  ResetPasswordSerializer.save validated_data;;
  mret (mkResponse 200 (DDict [
    ("detail", DStr "Password has been reset successfully.")])).

End ResetPasswordView.

(** ** [accounts/models.py]: the OTP kept on the row *)

Definition with_otp (u : User) (code : option string) (created : option Q) : User :=
  {| id := id u; email := email u; password := password u;
     first_name := first_name u; last_name := last_name u; role := role u;
     is_active := is_active u; is_staff := is_staff u;
     is_superuser := is_superuser u; is_verified := is_verified u;
     otp := code; otp_created_at := created;
     created_at := created_at u; updated_at := updated_at u |}.

Definition with_is_verified (u : User) (flag : bool) : User :=
  {| id := id u; email := email u; password := password u;
     first_name := first_name u; last_name := last_name u; role := role u;
     is_active := is_active u; is_staff := is_staff u;
     is_superuser := is_superuser u; is_verified := flag;
     otp := otp u; otp_created_at := otp_created_at u;
     created_at := created_at u; updated_at := updated_at u |}.

(** [(timezone.now() - created).total_seconds() > 300]. *)
Definition older_than_300 (now created : Q) : bool :=
  negb (Qle_bool (now - created) 300).

Definition set_otp (u : User) (otp_code : string) : M User :=
  now ← timezone_now;
  save (with_otp u (Some otp_code) (Some now)).

Definition is_otp_valid (u : User) : M bool :=
  match otp_created_at u with
  | None => mret false
  | Some created =>
      if negb (truthy (otp u)) then mret false
      else
        now ← timezone_now;
        mret (Qle_bool (now - created) 300)
  end.

(** ** [accounts/models.py]: [get_profile_completion_percentage]

    The columns of [User] that the method reads besides [first_name],
    [last_name] and [role].  A file column is represented by the name
    of its file, a nullable column by an option. *)
Record ProfileColumns := mkProfileColumns {
  phone_number : option string;
  profile_picture : option string;
  bio : string;
  location : option string;
  resume : option string;
  current_position : option string;
  education : option string;
  experience_years : option Z;
  company_name : option string;
  company_description : option string;
  company_website : option string
}.

Inductive column :=
  | CText (v : option string)
  | CInt (v : option Z).

(** Python truthiness: [None], the empty text and the number 0 are
    false. *)
Definition column_truthy (c : column) : bool :=
  match c with
  | CText v => truthy v
  | CInt (Some n) => negb (n =? 0)%Z
  | CInt None => false
  end.

(** Python's float arithmetic is IEEE binary64, as Rocq's primitive
    floats: [float(n)] for a small integer, and [int(x)], which drops
    the fractional part. *)
Definition float_of_Z (n : Z) : PrimFloat.float :=
  PrimFloat.of_uint63 (Uint63.of_Z n).

Definition int_of_float (x : PrimFloat.float) : Z :=
  match FloatOps.Prim2SF x with
  | SpecFloat.S754_finite s m e =>
      let v := if (0 <=? e)%Z then (Z.pos m * 2 ^ e)%Z
               else (Z.pos m / 2 ^ (- e))%Z in
      if s then (- v)%Z else v
  | _ => 0%Z
  end.

(** [int((completed / total) * 100) if total > 0 else 0]. *)
Definition percentage (completed total : Z) : Z :=
  if (0 <? total)%Z then
    int_of_float
      (PrimFloat.mul (PrimFloat.div (float_of_Z completed) (float_of_Z total))
         (float_of_Z 100))
  else 0%Z.

Definition profile_fields (u : User) (p : ProfileColumns) : list column :=
  let fields :=
    [CText (Some (first_name u)); CText (Some (last_name u));
     CText (phone_number p); CText (profile_picture p);
     CText (Some (bio p)); CText (location p)] in
  if bool_decide (role u = "job_seeker") then
    (fields ++ [CText (resume p); CText (current_position p);
                CText (education p); CInt (experience_years p)])%list
  else if bool_decide (role u = "employer") then
    (fields ++ [CText (company_name p); CText (company_description p);
                CText (company_website p)])%list
  else fields.

Definition get_profile_completion_percentage (u : User) (p : ProfileColumns) : Z :=
  let fields := profile_fields u p in
  let completed := Z.of_nat (length (List.filter column_truthy fields)) in
  let total := Z.of_nat (length fields) in
  percentage completed total.

(** ** The other [accounts/serializers.py] and [accounts/views.py]:
    verification by an OTP kept on the row *)

Record VerifyEmailData := mkVerifyEmailData {
  ve_email : string;
  ve_otp : string
}.

Module VerifyEmailSerializer.

Definition validate_email (value : string) : M string :=
  found ← objects_get value;
  match found with
  | None => raise (ValidationError (DStr "User with this email does not exist."))
  | Some _ => mret value
  end.

End VerifyEmailSerializer.

Module ResendOTPSerializer.

Definition validate_email (value : string) : M string :=
  found ← objects_get value;
  match found with
  | None => raise (ValidationError (DStr "User with this email does not exist."))
  | Some _ => mret value
  end.

End ResendOTPSerializer.

Module VerifyEmailView.

Definition post (request_data : VerifyEmailData) : M Response :=
  email ← VerifyEmailSerializer.validate_email (ve_email request_data);
  let submitted := ve_otp request_data in
  found ← objects_get email;
  match found with
  | None =>
      mret (mkResponse 404 (DDict [
        ("detail", DStr "User with this email does not exist.")]))
  | Some user =>
      if negb (truthy (otp user)) then
        mret (mkResponse 400 (DDict [
          ("detail", DStr "No OTP generated for this user. Please request a new one.")]))
      else if negb (py_eq (otp user) submitted) then
        mret (mkResponse 400 (DDict [
          ("detail", DStr "Invalid OTP. Please check the code and try again.")]))
      else
        now ← timezone_now;
        if match otp_created_at user with
           | Some created => older_than_300 now created
           | None => false
           end
        then
          mret (mkResponse 400 (DDict [
            ("detail", DStr "OTP has expired. Please request a new one.")]))
        else
          let user := with_is_verified user true in
          let user := with_otp user None None in
          save user;;
          mret (mkResponse 200 (DDict [
            ("detail", DStr "Email verified successfully. You can now login.")]))
  end.

End VerifyEmailView.

Definition newline : string := String (ascii_of_nat 10) EmptyString.

Module ResendOTPView.

(** [totp_now] is the code that
    [pyotp.TOTP(pyotp.random_base32(), interval=300).now()] yields: it
    is derived from a secret drawn for this request alone, and is an
    input here. *)
Definition post (totp_now : string) (request_email : string) : M Response :=
  address ← ResendOTPSerializer.validate_email request_email;
  found ← objects_get address;
  match found with
  | None =>
      mret (mkResponse 404 (DDict [
        ("detail", DStr "User with this email does not exist.")]))
  | Some user =>
      if is_verified user then
        mret (mkResponse 400 (DDict [
          ("detail", DStr "Email is already verified. No need to resend OTP.")]))
      else
        let otp_code := totp_now in
        now ← timezone_now;
        user ← save (with_otp user (Some otp_code) (Some now));
        send_mail "Verify your email - Job Portal"
          ("Your new OTP is: " +:+ otp_code +:+ newline +:+ newline
           +:+ "This OTP will expire in 5 minutes.")
          DEFAULT_FROM_EMAIL [email user];;
        mret (mkResponse 200 (DDict [
          ("detail", DStr "OTP resent successfully. Please check your email.")]))
  end.

End ResendOTPView.

Module UserProfileUpdateSerializer.

(** [key in attrs]. *)
Definition contains (attrs : gmap string data) (key : string) : bool :=
  bool_decide (is_Some (attrs !! key)).

Definition validate (user : User) (attrs : gmap string data)
  : M (gmap string data) :=
  if bool_decide (role user = "job_seeker") then
    if contains attrs "company_name" || contains attrs "company_size"
       || contains attrs "company_website" || contains attrs "company_description"
    then
      raise (ValidationError
               (DStr "Company fields are not applicable for job seekers."))
    else mret attrs
  else if bool_decide (role user = "employer") then
    if contains attrs "resume" || contains attrs "current_position"
       || contains attrs "education" || contains attrs "experience_years"
    then
      raise (ValidationError
               (DStr "Job seeker fields are not applicable for employers."))
    else mret attrs
  else mret attrs.

End UserProfileUpdateSerializer.

(** ** Concrete collaborators, to run the model *)

Module Demo.

(** Draws 1 2 3 4 5 6 1 2 3 4 5 6 ...: every OTP is "123456". *)
Definition cyclic : RandomSource :=
  {| rand_raw := λ n, (Z.of_nat (n mod 6) + 1)%Z;
     uuid_raw := λ n, "token-" +:+ pretty n |}.

(** A stand-in for the e-mail syntax check: the text holds an at
    sign. *)
Fixpoint has_at (s : string) : bool :=
  match s with
  | EmptyString => false
  | String c s' => bool_decide (c = "@"%char) || has_at s'
  end.

Definition plain : Django :=
  {| make_password := λ raw, "plain$" +:+ raw;
     check_password := λ raw h, bool_decide (h = "plain$" +:+ raw);
     check_make_password := λ raw, bool_decide_eq_true_2 _ eq_refl;
     normalize_email := λ e, e;
     EmailValidator := has_at;
     refresh_for_user := λ u, "refresh." +:+ email u;
     access_token := λ u, "access." +:+ email u |}.

Definition empty_world : world :=
  {| cache := ∅; users := ∅; outbox := []; clock := 0;
     rand_calls := 0; uuid_calls := 0 |}.

(** An OTP was requested at time 0 for registering a@x.com ... *)
Definition pending : world :=
  snd (@send_otp_email cyclic "a@x.com" "register" empty_world).

(** ... and requested again one minute later. *)
Definition pending_again : world :=
  snd (@send_otp_email cyclic "a@x.com" "register" (at_time 60 pending)).

(** A store that holds another code for a@x.com. *)
Definition other_code : world :=
  set_cache {[ otp_key "register" "a@x.com" := ("654321", 300%Q) ]} empty_world.

(** The OTP is verified at time 10: "token-0" is minted for
    registration ... *)
Definition verified_register : world :=
  snd (dispatch (@VerifyOTPView.post cyclic plain
         (mkOTPSubmission "a@x.com" "register" "123456")) (at_time 10 pending)).

Definition signup_data : SignupData :=
  mkSignupData "a@x.com" "Ada" "Byron" "secret1" "token-0".

(** ... and used at time 20. *)
Definition registered : world :=
  snd (dispatch (@SignupView.post plain signup_data) (at_time 20 verified_register)).

(** The row that this signup creates. *)
Definition ada : User :=
  {| id := Some 1%Z; email := "a@x.com"; password := "plain$secret1";
     first_name := "Ada"; last_name := "Byron"; role := "job_seeker";
     is_active := true; is_staff := false; is_superuser := false;
     is_verified := false; otp := None; otp_created_at := None;
     created_at := Some 20%Q; updated_at := Some 20%Q |}.

(** The same for a password reset: OTP at 100, "token-1" at 110,
    new password at 120. *)
Definition pending_reset : world :=
  snd (@send_otp_email cyclic "a@x.com" "reset" (at_time 100 registered)).

Definition verified_reset : world :=
  snd (dispatch (@VerifyOTPView.post cyclic plain
         (mkOTPSubmission "a@x.com" "reset" "123456")) (at_time 110 pending_reset)).

Definition reset_data : ResetData :=
  mkResetData "a@x.com" "token-1" "secret2".

Definition reset_done : world :=
  snd (dispatch (@ResetPasswordView.post plain reset_data) (at_time 120 verified_reset)).

(** A superuser created on an empty table. *)
Definition with_root : world :=
  snd (@UserManager.create_superuser plain "root@x.com" "toor" ∅ empty_world).

(** Ada, registered through the signup above, asks for an OTP of the
    older verification flow at time 200 and receives 424242. *)
Definition resent : world :=
  snd (dispatch (ResendOTPView.post "424242" "a@x.com") (at_time 200 registered)).

(** The profile of a job seeker who filled in every column and has no
    experience yet. *)
Definition novice : ProfileColumns :=
  {| phone_number := Some "555-0100"; profile_picture := Some "ada.png";
     bio := "Analyst"; location := Some "London";
     resume := Some "cv.pdf"; current_position := Some "Student";
     education := Some "Mathematics"; experience_years := Some 0%Z;
     company_name := None; company_description := None;
     company_website := None |}.

(** A table whose only account has been disabled. *)
Definition disabled_user : User :=
  {| id := Some 1%Z; email := "b@x.com"; password := "plain$hunter2";
     first_name := "Bob"; last_name := "Doe"; role := "job_seeker";
     is_active := false; is_staff := false; is_superuser := false;
     is_verified := false; otp := None; otp_created_at := None;
     created_at := Some 0%Q; updated_at := Some 0%Q |}.

Definition disabled : world :=
  set_users {[ "b@x.com" := disabled_user ]} empty_world.

End Demo.

(** * Properties *)

(** ** Running the monad *)

Ltac run :=
  unfold mbind, mret, M_bind, M_ret, gets, modify, raise in *; simpl in *.

Lemma bind_Ok {A B} (m : M A) (f : A → M B) w a w' :
  m w = (Ok a, w') → (m ≫= f) w = f a w'.
Proof. intros Hm. unfold mbind, M_bind. by rewrite Hm. Qed.

Lemma bind_Raise {A B} (m : M A) (f : A → M B) w e w' :
  m w = (Raise e, w') → (m ≫= f) w = (Raise e, w').
Proof. intros Hm. unfold mbind, M_bind. by rewrite Hm. Qed.

Lemma dispatch_Ok (handler : M Response) w r w' :
  handler w = (Ok r, w') → dispatch handler w = (r, w').
Proof. intros Hh. unfold dispatch. by rewrite Hh. Qed.

Lemma dispatch_ValidationError (handler : M Response) w detail w' :
  handler w = (Raise (ValidationError detail), w') →
  dispatch handler w = (mkResponse 400 detail, w').
Proof. intros Hh. unfold dispatch. by rewrite Hh. Qed.

(** ** The cache *)

Lemma has_expired_false now entry :
  has_expired now entry = false ↔ (now < snd entry)%Q.
Proof.
  unfold has_expired. destruct (Qle_bool (snd entry) now) eqn:E.
  - apply Qle_bool_iff in E. split; [discriminate | lra].
  - split; [intros _ | done].
    apply Qnot_le_lt. intros Hle. apply Qle_bool_iff in Hle. congruence.
Qed.

Lemma cache_lookup_Some c now key v :
  cache_lookup c now key = Some v ↔
  ∃ expiry, c !! key = Some (v, expiry) ∧ (now < expiry)%Q.
Proof.
  unfold cache_lookup. destruct (c !! key) as [[v' e]|] eqn:E.
  - destruct (has_expired now (v', e)) eqn:X.
    + split; [discriminate |]. intros (e' & [= <- <-] & Hlt).
      apply (has_expired_false now (v', e)) in Hlt. congruence.
    + apply has_expired_false in X. simpl in X. split.
      * intros [= <-]. eauto.
      * by intros (e' & [= <- <-] & _).
  - split; [discriminate |]. by intros (e' & ? & _).
Qed.

Lemma cache_lookup_absent c now key :
  c !! key = None → cache_lookup c now key = None.
Proof. unfold cache_lookup. by intros ->. Qed.

(** An entry that is not live stays so as time passes. *)
Lemma cache_lookup_None_later c t t' key :
  (t <= t')%Q → cache_lookup c t key = None → cache_lookup c t' key = None.
Proof.
  intros Hle Hnone. destruct (cache_lookup c t' key) as [v|] eqn:E; [|done].
  apply cache_lookup_Some in E as (e & Hk & Hlt).
  assert (cache_lookup c t key = Some v) as Hs.
  { apply cache_lookup_Some. exists e. split; [done | lra]. }
  congruence.
Qed.

(** ** [verify_otp] *)

Lemma verify_otp_success email otp purpose w :
  cache_lookup (cache w) (clock w) (otp_key purpose email) = Some otp →
  otp ≠ "" →
  verify_otp email otp purpose w =
    (Ok true, set_cache (delete (otp_key purpose email) (cache w)) w).
Proof.
  intros Hget Hne. unfold verify_otp, cache_get, cache_delete. run.
  rewrite Hget. simpl.
  rewrite !bool_decide_eq_false_2, bool_decide_eq_true_2 by done. done.
Qed.

Lemma verify_otp_failure email otp purpose w :
  cache_lookup (cache w) (clock w) (otp_key purpose email) ≠ Some otp →
  verify_otp email otp purpose w = (Ok false, w).
Proof.
  intros Hget. unfold verify_otp, cache_get, cache_delete. run.
  destruct (cache_lookup _ _ _) as [s|]; simpl; [|done].
  rewrite (bool_decide_eq_false_2 (s = otp)) by congruence.
  by rewrite andb_false_r.
Qed.

Lemma verify_otp_empty_stored email otp purpose w :
  cache_lookup (cache w) (clock w) (otp_key purpose email) = Some "" →
  verify_otp email otp purpose w = (Ok false, w).
Proof.
  intros Hget. unfold verify_otp, cache_get, cache_delete. run.
  by rewrite Hget.
Qed.

(** [verify_otp] never raises, and what it answers tells the state of
    the entry. *)
Lemma verify_otp_inv email otp purpose w r w' :
  verify_otp email otp purpose w = (r, w') →
  (r = Ok true ∧ otp ≠ "" ∧
   cache_lookup (cache w) (clock w) (otp_key purpose email) = Some otp ∧
   w' = set_cache (delete (otp_key purpose email) (cache w)) w)
  ∨ (r = Ok false ∧ w' = w).
Proof.
  intros Hrun.
  destruct (decide (cache_lookup (cache w) (clock w) (otp_key purpose email) = Some otp))
    as [Hs|Hn].
  - destruct (decide (otp = "")) as [->|Hne].
    + rewrite verify_otp_empty_stored in Hrun by done. right. by simplify_eq.
    + rewrite verify_otp_success in Hrun by done. left. by simplify_eq.
  - rewrite verify_otp_failure in Hrun by done. right. by simplify_eq.
Qed.

(** ** [generate_otp] and [send_otp_email] *)

Lemma pretty_digit (d : Z) :
  (0 ≤ d ≤ 9)%Z → ∃ c, pretty d = String c "".
Proof.
  intros Hd.
  assert (d = 0 ∨ d = 1 ∨ d = 2 ∨ d = 3 ∨ d = 4 ∨ d = 5 ∨ d = 6 ∨ d = 7
          ∨ d = 8 ∨ d = 9)%Z as Hcases by lia.
  repeat (destruct Hcases as [->|Hcases]; [eexists; reflexivity|]).
  subst. eexists; reflexivity.
Qed.

Lemma randint_run `{RandomSource} a b w :
  randint a b w =
    (Ok (a + rand_raw (rand_calls w) `mod` (b - a + 1))%Z,
     set_rand_calls (S (rand_calls w)) w).
Proof. done. Qed.

(** [generate_otp] always returns, with a text of [length] characters,
    and touches nothing but the random source. *)
Lemma generate_otp_run `{RandomSource} length w :
  ∃ code, generate_otp length w =
            (Ok code, set_rand_calls (rand_calls w + length) w)
          ∧ String.length code = length.
Proof.
  revert w. induction length as [|n IH]; intros w.
  - exists "". split; [|done]. simpl. unfold mret, M_ret.
    destruct w. unfold set_rand_calls. simpl. by rewrite Nat.add_0_r.
  - destruct (IH (set_rand_calls (S (rand_calls w)) w)) as (rest & Hrest & Hlen).
    destruct (pretty_digit (0 + rand_raw (rand_calls w) `mod` (9 - 0 + 1))%Z)
      as [c Hc].
    { pose proof (Z.mod_pos_bound (rand_raw (rand_calls w)) (9 - 0 + 1) eq_refl).
      lia. }
    exists (String c rest). split; [|simpl; by rewrite Hlen].
    cbn [generate_otp]. unfold mbind at 1. unfold M_bind. rewrite randint_run.
    unfold mbind at 1. unfold M_bind. rewrite Hrest. unfold mret, M_ret.
    rewrite Hc. simpl. unfold set_rand_calls. simpl.
    by rewrite Nat.add_succ_r.
Qed.

Lemma send_otp_email_run `{RandomSource} email purpose w :
  ∃ code,
    String.length code = 6 ∧
    send_otp_email email purpose w =
      (Ok code,
       {| cache := <[otp_key purpose email := (code, (clock w + 300)%Q)]> (cache w);
          users := users w;
          outbox := outbox w ++
            [mkMail ("Your " +:+ capitalize purpose +:+ " OTP Code")
               ("Your OTP code is: " +:+ code +:+ ". It is valid for 5 minutes.")
               DEFAULT_FROM_EMAIL [email]];
          clock := clock w;
          rand_calls := rand_calls w + 6;
          uuid_calls := uuid_calls w |}).
Proof.
  destruct (generate_otp_run 6 w) as (code & Hgen & Hlen).
  exists code. split; [done|].
  unfold send_otp_email. unfold mbind at 1. unfold M_bind. rewrite Hgen.
  unfold cache_set, send_mail. run. done.
Qed.

Lemma send_otp_email_inv `{RandomSource} email purpose w r w' :
  send_otp_email email purpose w = (r, w') →
  ∃ code, r = Ok code ∧ code ≠ "" ∧
    cache w' = <[otp_key purpose email := (code, (clock w + 300)%Q)]> (cache w) ∧
    users w' = users w ∧ clock w' = clock w.
Proof.
  destruct (send_otp_email_run email purpose w) as (code & Hlen & Hrun).
  rewrite Hrun. intros [= <- <-]. exists code. simpl.
  repeat split; try done. intros ->. discriminate.
Qed.

(** ** Field validation *)

Lemma run_fields_ok {A} fields (value : A) w :
  serializers.errors fields = [] →
  serializers.run_fields fields value w = (Ok value, w).
Proof.
  intros Hnil. unfold serializers.run_fields.
  by destruct (serializers.errors fields).
Qed.

Lemma run_fields_failed {A} fields (value : A) w :
  serializers.errors fields ≠ [] →
  serializers.run_fields fields value w =
    (Raise (ValidationError (DDict (serializers.errors fields))), w).
Proof.
  intros Hne. unfold serializers.run_fields.
  by destruct (serializers.errors fields).
Qed.

Lemma errors_cons name messages fields :
  serializers.errors ((name, messages) :: fields) = [] ↔
  messages = [] ∧ serializers.errors fields = [].
Proof.
  unfold serializers.errors. simpl. destruct messages; simpl.
  - split; [by intros Hrest | by intros [_ Hrest]].
  - split; [discriminate | by intros [? _]].
Qed.

Lemma CharField_ok min_length max_length value :
  serializers.CharField min_length max_length value = [] →
  value ≠ "" ∧
  (∀ n, min_length = Some n → (n ≤ String.length value)%nat) ∧
  (∀ n, max_length = Some n → (String.length value ≤ n)%nat).
Proof.
  unfold serializers.CharField. case_bool_decide as Hblank; [discriminate|].
  intros [Hmax Hmin]%app_eq_nil. split; [done|]. split.
  - intros n ->. simpl in Hmin.
    destruct (String.length value <? n)%nat eqn:E; [discriminate|].
    apply Nat.ltb_ge in E. done.
  - intros n ->. simpl in Hmax.
    destruct (n <? String.length value)%nat eqn:E; [discriminate|].
    apply Nat.ltb_ge in E. done.
Qed.

Lemma EmailField_ok `{Django} max_length validators value :
  serializers.EmailField max_length validators value = [] →
  value ≠ "" ∧ EmailValidator value = true ∧
  ∀ validator, validator ∈ validators → validator value = [].
Proof.
  unfold serializers.EmailField. case_bool_decide as Hblank; [discriminate|].
  intros [Hvs [_ Hsyntax]%app_eq_nil]%app_eq_nil. split; [done|]. split.
  - by destruct (EmailValidator value).
  - intros validator Hin.
    induction validators as [|v vs IH]; [by apply elem_of_nil in Hin|].
    simpl in Hvs. apply app_eq_nil in Hvs as [Hv Hvs].
    apply elem_of_cons in Hin as [->|Hin]; [done | by apply IH].
Qed.

Lemma UniqueValidator_ok queryset value :
  serializers.UniqueValidator queryset value = [] ↔ queryset !! value = None.
Proof.
  unfold serializers.UniqueValidator.
  destruct (queryset !! value); split; done.
Qed.

(** What a signup request that passes its fields is known to satisfy. *)
Lemma SignupSerializer_fields_ok `{Django} queryset data :
  serializers.errors (SignupSerializer.fields queryset data) = [] →
  su_email data ≠ "" ∧ queryset !! su_email data = None ∧
  su_first_name data ≠ "" ∧ su_last_name data ≠ "" ∧
  (6 ≤ String.length (su_password data))%nat ∧
  su_verification_token data ≠ "".
Proof.
  unfold SignupSerializer.fields.
  intros (Hemail & (Hfirst & (Hlast & (Hpw & (Htoken & _)%errors_cons)%errors_cons)
            %errors_cons)%errors_cons)%errors_cons.
  apply EmailField_ok in Hemail as (Hne & _ & Hunique).
  apply CharField_ok in Hfirst as (Hfirst & _).
  apply CharField_ok in Hlast as (Hlast & _).
  apply CharField_ok in Hpw as (_ & Hpw & _).
  apply CharField_ok in Htoken as (Htoken & _).
  repeat split; try done.
  - apply UniqueValidator_ok, Hunique. apply elem_of_cons. by left.
  - by apply Hpw.
Qed.

Lemma ResetPasswordSerializer_fields_ok `{Django} data :
  serializers.errors (ResetPasswordSerializer.fields data) = [] →
  rs_email data ≠ "" ∧ rs_verification_token data ≠ "" ∧
  (6 ≤ String.length (rs_new_password data))%nat.
Proof.
  unfold ResetPasswordSerializer.fields.
  intros (Hemail & (Htoken & (Hpw & _)%errors_cons)%errors_cons)%errors_cons.
  apply EmailField_ok in Hemail as (Hne & _ & _).
  apply CharField_ok in Htoken as (Htoken & _).
  apply CharField_ok in Hpw as (_ & Hpw & _).
  repeat split; try done. by apply Hpw.
Qed.




(** A request whose fields fail is answered 400 with the field errors,
    before anything else is looked at or done. *)
Lemma RequestOTPView_post_invalid `{RandomSource} `{Django} data w :
  serializers.errors (RequestOTPSerializer.fields data) ≠ [] →
  dispatch (RequestOTPView.post data) w =
    (mkResponse 400 (DDict (serializers.errors (RequestOTPSerializer.fields data))), w).
Proof.
  intros Hbad. apply dispatch_ValidationError.
  unfold RequestOTPView.post. apply bind_Raise.
  by apply run_fields_failed.
Qed.

Lemma VerifyOTPView_post_invalid `{RandomSource} `{Django} data w :
  serializers.errors (VerifyOTPSerializer.fields data) ≠ [] →
  dispatch (VerifyOTPView.post data) w =
    (mkResponse 400 (DDict (serializers.errors (VerifyOTPSerializer.fields data))), w).
Proof.
  intros Hbad. apply dispatch_ValidationError.
  unfold VerifyOTPView.post. apply bind_Raise.
  by apply run_fields_failed.
Qed.

Lemma SignupSerializer_to_internal_value_ok `{Django} data w :
  serializers.errors (SignupSerializer.fields (users w) data) = [] →
  SignupSerializer.to_internal_value data w = (Ok data, w).
Proof.
  intros Hok. unfold SignupSerializer.to_internal_value.
  unfold mbind, M_bind, gets. by apply run_fields_ok.
Qed.

Lemma SignupView_post_invalid `{Django} data w :
  serializers.errors (SignupSerializer.fields (users w) data) ≠ [] →
  dispatch (SignupView.post data) w =
    (mkResponse 400 (DDict (serializers.errors (SignupSerializer.fields (users w) data))),
     w).
Proof.
  intros Hbad. apply dispatch_ValidationError.
  unfold SignupView.post, SignupSerializer.is_valid. do 2 apply bind_Raise.
  unfold SignupSerializer.to_internal_value, mbind, M_bind, gets.
  by apply run_fields_failed.
Qed.

Lemma ResetPasswordView_post_invalid `{Django} data w :
  serializers.errors (ResetPasswordSerializer.fields data) ≠ [] →
  dispatch (ResetPasswordView.post data) w =
    (mkResponse 400 (DDict (serializers.errors (ResetPasswordSerializer.fields data))), w).
Proof.
  intros Hbad. apply dispatch_ValidationError.
  unfold ResetPasswordView.post, ResetPasswordSerializer.is_valid.
  do 2 apply bind_Raise. by apply run_fields_failed.
Qed.

(** With fields that pass, [is_valid] is [validate]. *)
Lemma SignupSerializer_is_valid_bind `{Django} {B} data (f : SignupData → M B) w :
  serializers.errors (SignupSerializer.fields (users w) data) = [] →
  (SignupSerializer.is_valid data ≫= f) w = (SignupSerializer.validate data ≫= f) w.
Proof.
  intros Hok. unfold SignupSerializer.is_valid.
  unfold mbind at 1 3. unfold M_bind.
  by rewrite (bind_Ok _ _ _ _ _ (SignupSerializer_to_internal_value_ok _ _ Hok)).
Qed.

Lemma ResetPasswordSerializer_is_valid_bind `{Django} {B} data (f : ResetData → M B) w :
  serializers.errors (ResetPasswordSerializer.fields data) = [] →
  (ResetPasswordSerializer.is_valid data ≫= f) w
  = (ResetPasswordSerializer.validate data ≫= f) w.
Proof.
  intros Hok. unfold ResetPasswordSerializer.is_valid.
  unfold mbind at 1 3. unfold M_bind.
  by rewrite (bind_Ok _ _ _ _ _
                (run_fields_ok (ResetPasswordSerializer.fields data) data w Hok)).
Qed.

(** ** One-time passwords *)

Lemma VerifyOTPView_post_failure `{RandomSource} `{Django} sub w w' :
  serializers.errors (VerifyOTPSerializer.fields sub) = [] →
  verify_otp (os_email sub) (os_otp sub) (os_purpose sub) w = (Ok false, w') →
  VerifyOTPView.post sub w =
    (Ok (mkResponse 400 (DDict [("detail", DStr "Invalid or expired OTP.")])), w').
Proof.
  intros Hok Hv. unfold VerifyOTPView.post. cbv zeta.
  rewrite (bind_Ok _ _ _ _ _
             (run_fields_ok (VerifyOTPSerializer.fields sub) sub w Hok)).
  by rewrite (bind_Ok _ _ _ _ _ Hv).
Qed.

(** On success the view mints the next UUID and stores the e-mail under
    it for 600 seconds. *)
Lemma VerifyOTPView_post_success `{RandomSource} `{Django} sub w w' :
  serializers.errors (VerifyOTPSerializer.fields sub) = [] →
  verify_otp (os_email sub) (os_otp sub) (os_purpose sub) w = (Ok true, w') →
  VerifyOTPView.post sub w =
    (Ok (mkResponse 200 (DDict [
           ("detail", DStr "OTP verified successfully.");
           ("verification_token", DStr (uuid_raw (uuid_calls w')))])),
     {| cache := <[verified_key (os_purpose sub) (uuid_raw (uuid_calls w'))
                   := (os_email sub, (clock w' + 600)%Q)]> (cache w');
        users := users w'; outbox := outbox w'; clock := clock w';
        rand_calls := rand_calls w'; uuid_calls := S (uuid_calls w') |}).
Proof.
  intros Hok Hv. unfold VerifyOTPView.post. cbv zeta.
  rewrite (bind_Ok _ _ _ _ _
             (run_fields_ok (VerifyOTPSerializer.fields sub) sub w Hok)).
  by rewrite (bind_Ok _ _ _ _ _ Hv).
Qed.

(** C1: an OTP stored by [send_otp_email] that has neither expired nor
    been overwritten verifies with the stored code; the entry is then
    deleted, and verifying the same code again fails. *)
Theorem request_then_verify_exactly_once `{RandomSource}
    email purpose w0 code w1 w :
  send_otp_email email purpose w0 = (Ok code, w1) →
  cache w !! otp_key purpose email = cache w1 !! otp_key purpose email →
  (clock w < clock w0 + 300)%Q →
  ∃ w',
    verify_otp email code purpose w = (Ok true, w') ∧
    cache w' !! otp_key purpose email = None ∧
    ∀ t, verify_otp email code purpose (at_time t w') = (Ok false, at_time t w').
Proof.
  intros Hsend Hkept Hfresh.
  apply send_otp_email_inv in Hsend as (code' & [= <-] & Hne & Hcache & _ & _).
  rewrite Hcache, lookup_insert_eq in Hkept.
  exists (set_cache (delete (otp_key purpose email) (cache w)) w).
  split; [|split].
  - apply verify_otp_success; [|done].
    apply cache_lookup_Some. eauto.
  - simpl. apply lookup_delete_eq.
  - intros t. apply verify_otp_failure. simpl.
    rewrite cache_lookup_absent; [done|]. apply lookup_delete_eq.
Qed.

Lemma request_then_verify_exactly_once_witness :
  ∃ w',
    verify_otp "a@x.com" "123456" "register" (at_time 10 Demo.pending)
      = (Ok true, w') ∧
    cache w' !! otp_key "register" "a@x.com" = None ∧
    ∀ t, verify_otp "a@x.com" "123456" "register" (at_time t w')
         = (Ok false, at_time t w').
Proof.
  apply (@request_then_verify_exactly_once Demo.cyclic "a@x.com" "register"
           Demo.empty_world "123456" Demo.pending (at_time 10 Demo.pending)).
  - vm_compute. reflexivity.
  - reflexivity.
  - vm_compute. reflexivity.
Defined.

(** C7, as the code has it: [send_otp_email] overwrites the entry of
    its key with the code it drew and a lifetime of 300 seconds from
    now; from then on a code verifies exactly when it is that code and
    the 300 seconds have not passed.  The previous code is rejected
    unless the draw repeated it. *)
Theorem second_request_overwrites `{RandomSource} email purpose w1 code2 w2 :
  send_otp_email email purpose w1 = (Ok code2, w2) →
  cache w2 !! otp_key purpose email = Some (code2, (clock w1 + 300)%Q) ∧
  ∀ code t,
    fst (verify_otp email code purpose (at_time t w2)) = Ok true
    ↔ code = code2 ∧ (t < clock w1 + 300)%Q.
Proof.
  intros Hsend.
  apply send_otp_email_inv in Hsend as (code' & [= <-] & Hne & Hcache & _ & _).
  assert (cache w2 !! otp_key purpose email = Some (code2, (clock w1 + 300)%Q))
    as Hentry by (rewrite Hcache; apply lookup_insert_eq).
  split; [done|]. intros code t. split.
  - destruct (verify_otp email code purpose (at_time t w2)) as [r w'] eqn:Hrun.
    apply verify_otp_inv in Hrun as [(-> & _ & Hget & _)|(-> & _)];
      [|simpl; discriminate].
    intros _. simpl in Hget.
    apply cache_lookup_Some in Hget as (e & Hk & Hlt).
    rewrite Hentry in Hk. by simplify_eq.
  - intros [-> Hlt]. rewrite verify_otp_success; [done| |done].
    simpl. apply cache_lookup_Some. eauto.
Qed.

Lemma second_request_overwrites_witness :
  cache Demo.pending_again !! otp_key "register" "a@x.com"
    = Some ("123456", (60 + 300)%Q) ∧
  ∀ code t,
    fst (verify_otp "a@x.com" code "register" (at_time t Demo.pending_again))
      = Ok true
    ↔ code = "123456" ∧ (t < 60 + 300)%Q.
Proof.
  apply (@second_request_overwrites Demo.cyclic "a@x.com" "register"
           (at_time 60 Demo.pending) "123456" Demo.pending_again).
  vm_compute. reflexivity.
Defined.

(** C7, as stated, fails when the second draw repeats the first: the
    random source below yields 123456 twice, and the code of the first
    request still verifies after the second. *)
Lemma second_request_same_code_counterexample :
  @send_otp_email Demo.cyclic "a@x.com" "register" Demo.empty_world
    = (Ok "123456", Demo.pending) ∧
  @send_otp_email Demo.cyclic "a@x.com" "register" (at_time 60 Demo.pending)
    = (Ok "123456", Demo.pending_again) ∧
  fst (verify_otp "a@x.com" "123456" "register" (at_time 61 Demo.pending_again))
    = Ok true.
Proof. vm_compute. done. Qed.

(** C8: a submitted code is refused in the same way when no OTP is
    pending and when another code is stored: [verify_otp] returns
    [False] in both cases and the view answers with the same
    response. *)
Theorem verify_otp_failure_indistinguishable `{RandomSource} `{Django}
    email purpose code stored w_absent w_wrong :
  cache_lookup (cache w_absent) (clock w_absent) (otp_key purpose email) = None →
  cache_lookup (cache w_wrong) (clock w_wrong) (otp_key purpose email) = Some stored →
  stored ≠ code →
  fst (verify_otp email code purpose w_absent) = Ok false ∧
  fst (verify_otp email code purpose w_wrong) = Ok false ∧
  fst (dispatch (VerifyOTPView.post (mkOTPSubmission email purpose code)) w_absent)
  = fst (dispatch (VerifyOTPView.post (mkOTPSubmission email purpose code)) w_wrong).
Proof.
  intros Habsent Hwrong Hne.
  assert (verify_otp email code purpose w_absent = (Ok false, w_absent)) as Ha.
  { apply verify_otp_failure. congruence. }
  assert (verify_otp email code purpose w_wrong = (Ok false, w_wrong)) as Hw.
  { apply verify_otp_failure. congruence. }
  rewrite Ha, Hw. repeat split.
  destruct (decide (serializers.errors
                      (VerifyOTPSerializer.fields (mkOTPSubmission email purpose code))
                    = [])) as [Hok|Hbad].
  - unfold dispatch.
    by rewrite !(VerifyOTPView_post_failure (mkOTPSubmission email purpose code) _ _)
      by done.
  - by rewrite !VerifyOTPView_post_invalid by done.
Qed.

Lemma verify_otp_failure_indistinguishable_witness :
  fst (verify_otp "a@x.com" "000000" "register" Demo.empty_world) = Ok false ∧
  fst (verify_otp "a@x.com" "000000" "register" Demo.other_code) = Ok false ∧
  fst (dispatch (@VerifyOTPView.post Demo.cyclic Demo.plain
         (mkOTPSubmission "a@x.com" "register" "000000")) Demo.empty_world)
  = fst (dispatch (@VerifyOTPView.post Demo.cyclic Demo.plain
         (mkOTPSubmission "a@x.com" "register" "000000")) Demo.other_code).
Proof.
  apply (@verify_otp_failure_indistinguishable Demo.cyclic Demo.plain "a@x.com" "register"
           "000000" "654321" Demo.empty_world Demo.other_code).
  - reflexivity.
  - vm_compute. reflexivity.
  - discriminate.
Defined.

(** C10: a failed [verify_otp] leaves the world, hence the store, as it
    was; an OTP that was pending is still there and verifies afterwards
    with its own code until it expires. *)
Theorem failed_verify_keeps_store email guess purpose w w' :
  verify_otp email guess purpose w = (Ok false, w') →
  w' = w ∧
  ∀ stored expiry t,
    cache w !! otp_key purpose email = Some (stored, expiry) →
    stored ≠ "" →
    (t < expiry)%Q →
    verify_otp email stored purpose (at_time t w')
    = (Ok true, set_cache (delete (otp_key purpose email) (cache w)) (at_time t w)).
Proof.
  intros Hrun.
  apply verify_otp_inv in Hrun as [([=] & _)|(_ & ->)].
  split; [done|]. intros stored expiry t Hentry Hne Hlt.
  rewrite verify_otp_success; [done| |done].
  simpl. apply cache_lookup_Some. eauto.
Qed.

Lemma failed_verify_keeps_store_witness :
  at_time 10 Demo.pending = at_time 10 Demo.pending ∧
  ∀ stored expiry t,
    cache (at_time 10 Demo.pending) !! otp_key "register" "a@x.com"
      = Some (stored, expiry) →
    stored ≠ "" →
    (t < expiry)%Q →
    verify_otp "a@x.com" stored "register" (at_time t (at_time 10 Demo.pending))
    = (Ok true,
       set_cache (delete (otp_key "register" "a@x.com")
                    (cache (at_time 10 Demo.pending)))
         (at_time t (at_time 10 Demo.pending))).
Proof.
  apply (failed_verify_keeps_store "a@x.com" "000000" "register"
           (at_time 10 Demo.pending) (at_time 10 Demo.pending)).
  vm_compute. reflexivity.
Defined.

(** ** Verification tokens *)



(** The check that both consuming serializers make on the cached
    e-mail. *)
Lemma token_check_passes cached email :
  negb (truthy cached) || negb (py_eq cached email) = false
  ↔ cached = Some email ∧ email ≠ "".
Proof.
  destruct cached as [s|]; simpl; [|split; [done | by intros [[=] _]]].
  rewrite orb_false_iff, !negb_false_iff, negb_true_iff.
  rewrite bool_decide_eq_false, bool_decide_eq_true.
  split; [intros [? ->]; done | intros [[= ->] ?]; done].
Qed.

Lemma SignupSerializer_validate_ok data w :
  cache_lookup (cache w) (clock w) (verified_key "register" (su_verification_token data))
    = Some (su_email data) →
  su_email data ≠ "" →
  SignupSerializer.validate data w = (Ok data, w).
Proof.
  intros Hget Hne. unfold SignupSerializer.validate, cache_get. run.
  destruct (token_check_passes (Some (su_email data)) (su_email data)) as [_ Hp].
  rewrite Hget. by rewrite Hp.
Qed.

Lemma SignupSerializer_validate_inv data w r w' :
  SignupSerializer.validate data w = (r, w') →
  w' = w ∧
  ((r = Ok data ∧ su_email data ≠ "" ∧
    cache_lookup (cache w) (clock w)
      (verified_key "register" (su_verification_token data)) = Some (su_email data))
   ∨ (r = Raise InvalidToken ∧
      cache_lookup (cache w) (clock w)
        (verified_key "register" (su_verification_token data)) ≠ Some (su_email data))
   ∨ (r = Raise InvalidToken ∧ su_email data = "")).
Proof.
  unfold SignupSerializer.validate, cache_get. run.
  destruct (negb (truthy _) || negb (py_eq _ _)) eqn:E; intros [= <- <-];
    (split; [done|]).
  - destruct (decide (su_email data = "")) as [?|Hne]; [by right; right|].
    right; left. split; [done|]. intros Hget.
    destruct (token_check_passes (Some (su_email data)) (su_email data)) as [_ Hp].
    rewrite Hget, Hp in E; done.
  - apply token_check_passes in E as [? ?]. by left.
Qed.

Lemma ResetPasswordSerializer_validate_ok data w :
  cache_lookup (cache w) (clock w) (verified_key "reset" (rs_verification_token data))
    = Some (rs_email data) →
  rs_email data ≠ "" →
  ResetPasswordSerializer.validate data w = (Ok data, w).
Proof.
  intros Hget Hne. unfold ResetPasswordSerializer.validate, cache_get. run.
  destruct (token_check_passes (Some (rs_email data)) (rs_email data)) as [_ Hp].
  rewrite Hget. by rewrite Hp.
Qed.

Lemma ResetPasswordSerializer_validate_inv data w r w' :
  ResetPasswordSerializer.validate data w = (r, w') →
  w' = w ∧
  ((r = Ok data ∧ rs_email data ≠ "" ∧
    cache_lookup (cache w) (clock w)
      (verified_key "reset" (rs_verification_token data)) = Some (rs_email data))
   ∨ (r = Raise InvalidToken ∧
      cache_lookup (cache w) (clock w)
        (verified_key "reset" (rs_verification_token data)) ≠ Some (rs_email data))
   ∨ (r = Raise InvalidToken ∧ rs_email data = "")).
Proof.
  unfold ResetPasswordSerializer.validate, cache_get. run.
  destruct (negb (truthy _) || negb (py_eq _ _)) eqn:E; intros [= <- <-];
    (split; [done|]).
  - destruct (decide (rs_email data = "")) as [?|Hne]; [by right; right|].
    right; left. split; [done|]. intros Hget.
    destruct (token_check_passes (Some (rs_email data)) (rs_email data)) as [_ Hp].
    rewrite Hget, Hp in E; done.
  - apply token_check_passes in E as [? ?]. by left.
Qed.








(** ** Accounts *)

(** No caller passes [is_verified]: the new row takes the default. *)
Lemma User_new_is_verified email (kw : gmap string field_value) :
  kw !! "is_verified" = None →
  is_verified
    (User_new email
       (setdefault "is_superuser" (FBool false)
          (setdefault "is_staff" (FBool false) kw))) = false.
Proof.
  intros Hkw. unfold User_new, kw_bool, setdefault. simpl.
  destruct (kw !! "is_staff");
    [destruct (kw !! "is_superuser") | destruct (<["is_staff":=_]> kw !! "is_superuser")];
    rewrite ?lookup_insert_ne by done; by rewrite Hkw.
Qed.

Lemma create_user_inv `{Django} email raw kw w r w' :
  UserManager.create_user email raw kw w = (r, w') →
  (∃ e, r = Raise e ∧ w' = w)
  ∨ (∃ u,
       r = Ok u ∧
       users w !! normalize_email email = None ∧
       w' = set_users (<[normalize_email email := u]> (users w)) w ∧
       u = with_id
             (pre_save true (clock w)
                (set_password
                   (User_new (normalize_email email)
                      (setdefault "is_superuser" (FBool false)
                         (setdefault "is_staff" (FBool false) kw))) raw))
             (Z.of_nat (size (users w)) + 1)).
Proof.
  unfold UserManager.create_user, UserManager._create_user. cbv zeta.
  case_bool_decide; [intros [= <- <-]; left; eauto|].
  unfold save, timezone_now. run.
  destruct (users w !! normalize_email email) eqn:E; intros [= <- <-].
  - left; eauto.
  - right. eexists. repeat split; done.
Qed.

(** What a successful signup did. *)
Lemma SignupView_post_created `{Django} data w r w' :
  dispatch (SignupView.post data) w = (r, w') →
  status r = 201 →
  su_email data ≠ "" ∧
  cache_lookup (cache w) (clock w)
    (verified_key "register" (su_verification_token data)) = Some (su_email data) ∧
  users w !! normalize_email (su_email data) = None ∧
  ∃ u,
    w' = set_users (<[normalize_email (su_email data) := u]> (users w)) w ∧
    email u = normalize_email (su_email data) ∧
    is_Some (id u) ∧
    password u = make_password (su_password data) ∧
    is_verified u = false.
Proof.
  destruct (decide (serializers.errors (SignupSerializer.fields (users w) data) = []))
    as [Hfields|Hfields];
    [|rewrite SignupView_post_invalid by done; by intros [= <- <-]].
  unfold dispatch, SignupView.post.
  rewrite SignupSerializer_is_valid_bind by done.
  destruct (SignupSerializer.validate data w) as [rv wv] eqn:Hv.
  apply SignupSerializer_validate_inv in Hv as Hinv.
  destruct Hinv as (-> & [(-> & Hne & Hget)|[(-> & _)|(-> & _)]]);
    [|rewrite (bind_Raise _ _ _ _ _ Hv); by intros [= <- <-]..].
  rewrite (bind_Ok _ _ _ _ _ Hv).
  destruct (SignupSerializer.create data w) as [rc wc] eqn:Hc.
  unfold SignupSerializer.create in Hc.
  apply create_user_inv in Hc as Hinv.
  destruct Hinv as [(e & -> & ->)|(u & -> & Hfree & -> & Hu)].
  - rewrite (bind_Raise _ _ _ _ _ Hc). destruct e; by intros [= <- <-].
  - rewrite (bind_Ok _ _ _ _ _ Hc). unfold mret, M_ret. intros [= <- <-] _.
    repeat split; try done. exists u. repeat split.
    + by rewrite Hu.
    + rewrite Hu. simpl. eauto.
    + by rewrite Hu.
    + rewrite Hu. unfold with_id, pre_save, set_password, with_password.
      cbn [is_verified]. apply User_new_is_verified.
      rewrite lookup_insert_ne by done. by rewrite lookup_singleton_ne.
Qed.

(** A signup is answered 201 only if its fields passed. *)
Lemma SignupView_post_created_fields `{Django} data w r w' :
  dispatch (SignupView.post data) w = (r, w') →
  status r = 201 →
  serializers.errors (SignupSerializer.fields (users w) data) = [].
Proof.
  destruct (decide (serializers.errors (SignupSerializer.fields (users w) data) = []))
    as [Hfields|Hfields]; [done|].
  rewrite SignupView_post_invalid by done. by intros [= <- <-].
Qed.

(** C2, as the code has it: the row created by a successful signup has
    [is_verified] false, the default of the model; nothing in the
    signup path sets the flag. *)
Theorem signup_creates_unverified_user `{Django} data w r w' :
  dispatch (SignupView.post data) w = (r, w') →
  status r = 201 →
  users w !! normalize_email (su_email data) = None ∧
  ∃ u, users w' !! normalize_email (su_email data) = Some u ∧
       is_verified u = false.
Proof.
  intros Hrun Hok.
  apply SignupView_post_created in Hrun
    as (_ & _ & Hfree & u & -> & _ & _ & _ & Hflag); [|done].
  split; [done|]. exists u. split; [|done].
  simpl. apply lookup_insert_eq.
Qed.

Lemma signup_creates_unverified_user_witness :
  users (at_time 20 Demo.verified_register) !! "a@x.com" = None ∧
  ∃ u, users Demo.registered !! "a@x.com" = Some u ∧ is_verified u = false.
Proof.
  apply (@signup_creates_unverified_user Demo.plain Demo.signup_data
           (at_time 20 Demo.verified_register)
           (fst (dispatch (@SignupView.post Demo.plain Demo.signup_data)
                   (at_time 20 Demo.verified_register)))
           Demo.registered).
  - reflexivity.
  - vm_compute. reflexivity.
Defined.

(** C2, as stated, fails: the signup below succeeds with a valid
    registration token, and the row it creates has [is_verified]
    false. *)
Lemma signup_is_verified_counterexample :
  status (fst (dispatch (@SignupView.post Demo.plain Demo.signup_data)
                 (at_time 20 Demo.verified_register))) = 201 ∧
  users Demo.registered !! "a@x.com" = Some Demo.ada ∧
  is_verified Demo.ada = false.
Proof. vm_compute. done. Qed.

(** [authenticate] answers [None] for a disabled account, whatever the
    password. *)
Lemma authenticate_inactive `{Django} email raw u w :
  users w !! email = Some u →
  is_active u = false →
  authenticate email raw w = (Ok None, w).
Proof.
  intros Hu Hoff. unfold authenticate, ModelBackend.authenticate, objects_get.
  run. rewrite Hu. unfold ModelBackend.user_can_authenticate. rewrite Hoff.
  by rewrite andb_false_r.
Qed.

Lemma authenticate_inv `{Django} email raw w r w' :
  authenticate email raw w = (r, w') →
  w' = w ∧
  (r = Ok None
   ∨ ∃ u, r = Ok (Some u) ∧ users w !! email = Some u ∧
          user_check_password u raw = true ∧ is_active u = true).
Proof.
  unfold authenticate, ModelBackend.authenticate, objects_get. run.
  destruct (users w !! email) as [u|] eqn:E; [|intros [= <- <-]; auto].
  destruct (user_check_password u raw && ModelBackend.user_can_authenticate u) eqn:C;
    intros [= <- <-]; [|auto].
  apply andb_true_iff in C as [? ?]. split; [done|]. right. eauto.
Qed.

(** The branch of [LoginSerializer.validate] that reports a disabled
    account is never taken. *)
Lemma login_never_reports_disabled `{Django} attrs w :
  fst (LoginSerializer.validate attrs w) ≠ Raise AccountDisabled.
Proof.
  unfold LoginSerializer.validate. cbv zeta.
  destruct (authenticate (lg_email attrs) (lg_password attrs) w) as [r w'] eqn:Ha.
  apply authenticate_inv in Ha as Hinv.
  destruct Hinv as (-> & [->|(u & -> & _ & _ & Hon)]);
    rewrite (bind_Ok _ _ _ _ _ Ha).
  - unfold raise. simpl. discriminate.
  - rewrite Hon. simpl. discriminate.
Qed.

(** C3, as the code has it: a login with the right password for an
    account whose [is_active] is false is refused with "Invalid email
    or password.", the answer for wrong credentials, not with "User
    account is disabled.": [authenticate] has already filtered the
    account out. *)
Theorem login_inactive_reports_invalid_credentials `{Django} attrs u w :
  users w !! lg_email attrs = Some u →
  user_check_password u (lg_password attrs) = true →
  is_active u = false →
  LoginSerializer.validate attrs w = (Raise InvalidCredentials, w) ∧
  dispatch (LoginView.post attrs) w
    = (mkResponse 400 (DStr "Invalid email or password."), w).
Proof.
  intros Hu _ Hoff.
  assert (LoginSerializer.validate attrs w = (Raise InvalidCredentials, w)) as Hv.
  { unfold LoginSerializer.validate. cbv zeta.
    by rewrite (bind_Ok _ _ _ _ _ (authenticate_inactive _ _ _ _ Hu Hoff)). }
  split; [done|].
  apply dispatch_ValidationError. unfold LoginView.post.
  by rewrite (bind_Raise _ _ _ _ _ Hv).
Qed.

Lemma login_inactive_reports_invalid_credentials_witness :
  @LoginSerializer.validate Demo.plain (mkLoginData "b@x.com" "hunter2") Demo.disabled
    = (Raise InvalidCredentials, Demo.disabled) ∧
  dispatch (@LoginView.post Demo.plain (mkLoginData "b@x.com" "hunter2")) Demo.disabled
    = (mkResponse 400 (DStr "Invalid email or password."), Demo.disabled).
Proof.
  apply (@login_inactive_reports_invalid_credentials Demo.plain
           (mkLoginData "b@x.com" "hunter2") Demo.disabled_user Demo.disabled).
  - vm_compute. reflexivity.
  - vm_compute. reflexivity.
  - reflexivity.
Defined.

(** ** Consuming a verification token *)

Lemma VerifyOTPView_post_inv `{RandomSource} `{Django} sub w r w' :
  dispatch (VerifyOTPView.post sub) w = (r, w') →
  (status r = 400 ∧ w' = w)
  ∨ (status r = 200 ∧
     body r = DDict [("detail", DStr "OTP verified successfully.");
                     ("verification_token", DStr (uuid_raw (uuid_calls w)))] ∧
     os_otp sub ≠ "" ∧
     cache_lookup (cache w) (clock w) (otp_key (os_purpose sub) (os_email sub))
       = Some (os_otp sub) ∧
     cache w' = <[verified_key (os_purpose sub) (uuid_raw (uuid_calls w))
                  := (os_email sub, (clock w + 600)%Q)]>
                  (delete (otp_key (os_purpose sub) (os_email sub)) (cache w)) ∧
     users w' = users w ∧ clock w' = clock w).
Proof.
  destruct (decide (serializers.errors (VerifyOTPSerializer.fields sub) = []))
    as [Hfields|Hfields];
    [|rewrite VerifyOTPView_post_invalid by done; intros [= <- <-]; by left].
  destruct (verify_otp (os_email sub) (os_otp sub) (os_purpose sub) w)
    as [rv wv] eqn:Hv.
  apply verify_otp_inv in Hv as Hinv.
  destruct Hinv as [(-> & Hne & Hget & ->)|(-> & ->)].
  - rewrite (dispatch_Ok _ _ _ _ (VerifyOTPView_post_success _ _ _ Hfields Hv)).
    intros [= <- <-]. right. done.
  - rewrite (dispatch_Ok _ _ _ _ (VerifyOTPView_post_failure _ _ _ Hfields Hv)).
    intros [= <- <-]. by left.
Qed.





(** ** Password reset *)

Lemma save_existing u w :
  is_Some (id u) →
  save u w = (Ok (pre_save false (clock w) u),
              set_users (<[email u := pre_save false (clock w) u]> (users w)) w).
Proof. intros [pk Hpk]. unfold save, timezone_now. run. by rewrite Hpk. Qed.

Lemma save_frame u w r w' :
  save u w = (r, w') → cache w' = cache w ∧ clock w' = clock w.
Proof.
  unfold save, timezone_now. run. destruct (id u); [by intros [= <- <-]|].
  destruct (users w !! email u); by intros [= <- <-].
Qed.

(** The table stays well formed when a row is saved under its own
    e-mail. *)
Lemma save_table_ok u w r w' :
  table_ok (users w) → save u w = (r, w') → table_ok (users w').
Proof.
  unfold save, timezone_now, table_ok. run. intros Hok.
  destruct (id u) as [pk|] eqn:Hid.
  - intros [= <- <-]. simpl. apply map_Forall_insert_2; [|done].
    split; [done|]. simpl. rewrite Hid. eauto.
  - destruct (users w !! email u); intros [= <- <-]; [done|]. simpl.
    apply map_Forall_insert_2; [|done]. split; [done | simpl; eauto].
Qed.

Lemma ResetPasswordSerializer_save_frame `{Django} data w r w' :
  ResetPasswordSerializer.save data w = (r, w') →
  cache w' = cache w ∧ clock w' = clock w.
Proof.
  unfold ResetPasswordSerializer.save, objects_get. cbv zeta.
  unfold mbind at 1. unfold M_bind, gets.
  destruct (users w !! rs_email data); [apply save_frame|].
  by intros [= <- <-].
Qed.

(** What a successful password reset went through. *)
Lemma ResetPasswordView_post_done `{Django} data w r w' :
  dispatch (ResetPasswordView.post data) w = (r, w') →
  status r = 200 →
  rs_email data ≠ "" ∧
  cache_lookup (cache w) (clock w)
    (verified_key "reset" (rs_verification_token data)) = Some (rs_email data) ∧
  cache w' = cache w ∧ clock w' = clock w.
Proof.
  destruct (decide (serializers.errors (ResetPasswordSerializer.fields data) = []))
    as [Hfields|Hfields];
    [|rewrite ResetPasswordView_post_invalid by done; by intros [= <- <-]].
  unfold dispatch, ResetPasswordView.post.
  rewrite ResetPasswordSerializer_is_valid_bind by done.
  destruct (ResetPasswordSerializer.validate data w) as [rv wv] eqn:Hv.
  apply ResetPasswordSerializer_validate_inv in Hv as Hinv.
  destruct Hinv as (-> & [(-> & Hne & Hget)|[(-> & _)|(-> & _)]]);
    [|rewrite (bind_Raise _ _ _ _ _ Hv); by intros [= <- <-]..].
  rewrite (bind_Ok _ _ _ _ _ Hv).
  destruct (ResetPasswordSerializer.save data w) as [rs ws] eqn:Hs.
  apply ResetPasswordSerializer_save_frame in Hs as Hframe.
  destruct rs as [u|e].
  - rewrite (bind_Ok _ _ _ _ _ Hs). unfold mret, M_ret.
    intros [= <- <-] _. by destruct Hframe.
  - rewrite (bind_Raise _ _ _ _ _ Hs). destruct e; by intros [= <- <-].
Qed.

(** A reset is answered 200 only if its fields passed. *)
Lemma ResetPasswordView_post_done_fields `{Django} data w r w' :
  dispatch (ResetPasswordView.post data) w = (r, w') →
  status r = 200 →
  serializers.errors (ResetPasswordSerializer.fields data) = [].
Proof.
  destruct (decide (serializers.errors (ResetPasswordSerializer.fields data) = []))
    as [Hfields|Hfields]; [done|].
  rewrite ResetPasswordView_post_invalid by done. by intros [= <- <-].
Qed.

(** [ResetPasswordSerializer.save] on a row of the table. *)
Lemma ResetPasswordSerializer_save_run `{Django} data u w :
  table_ok (users w) →
  users w !! rs_email data = Some u →
  ResetPasswordSerializer.save data w
  = (Ok (pre_save false (clock w) (set_password u (rs_new_password data))),
     set_users (<[rs_email data
                  := pre_save false (clock w) (set_password u (rs_new_password data))]>
                  (users w)) w).
Proof.
  intros Htable Hu. destruct (Htable _ _ Hu) as [Hmail Hpk].
  unfold ResetPasswordSerializer.save, objects_get. cbv zeta.
  unfold mbind at 1. unfold M_bind, gets. rewrite Hu.
  rewrite save_existing by done. simpl. by rewrite Hmail.
Qed.




(** ** Tokens are not consumed *)

(** C9: a successful signup or password reset leaves the cache as it
    found it: the [verified:...] entry of the token it used is still
    there, and the same token passes the serializer's validation again
    at any time before the 600 seconds that follow its minting have
    passed. *)
Theorem consumed_token_stays_valid `{RandomSource} `{Django}
    sub w0 rv w1 token :
  dispatch (VerifyOTPView.post sub) w0 = (rv, w1) →
  status rv = 200 →
  dict_get "verification_token" (body rv) = Some (DStr token) →
  (os_purpose sub = "register" →
   ∀ t1 data r w2,
     su_verification_token data = token →
     dispatch (SignupView.post data) (at_time t1 w1) = (r, w2) →
     status r = 201 →
     cache w2 = cache w1 ∧
     ∀ t2, (t2 < clock w0 + 600)%Q →
       SignupSerializer.validate data (at_time t2 w2) = (Ok data, at_time t2 w2))
  ∧ (os_purpose sub = "reset" →
     ∀ t1 data r w2,
       rs_verification_token data = token →
       dispatch (ResetPasswordView.post data) (at_time t1 w1) = (r, w2) →
       status r = 200 →
       cache w2 = cache w1 ∧
       ∀ t2, (t2 < clock w0 + 600)%Q →
         ResetPasswordSerializer.validate data (at_time t2 w2)
         = (Ok data, at_time t2 w2)).
Proof.
  intros Hmint Hok Htok.
  apply VerifyOTPView_post_inv in Hmint
    as [(Hs & _)|(_ & Hbody & _ & _ & Hcache & _ & _)]; [congruence|].
  rewrite Hbody in Htok. simpl in Htok.
  assert (token = uuid_raw (uuid_calls w0)) as -> by congruence.
  split; intros Hp t1 data r w2 Hdata Hrun Hdone; rewrite Hp in Hcache.
  - apply SignupView_post_created in Hrun
      as (Hne & Hget & _ & u & -> & _); [|done].
    simpl in *. split; [done|]. intros t2 Ht2.
    apply cache_lookup_Some in Hget as (e & Hentry & _).
    rewrite Hdata, Hcache, lookup_insert_eq in Hentry.
    apply SignupSerializer_validate_ok; [|done]. simpl.
    apply cache_lookup_Some. exists (clock w0 + 600)%Q. split; [|done].
    rewrite Hdata, Hcache, lookup_insert_eq. congruence.
  - apply ResetPasswordView_post_done in Hrun
      as (Hne & Hget & Hsame & _); [|done].
    simpl in *. split; [done|]. intros t2 Ht2.
    apply cache_lookup_Some in Hget as (e & Hentry & _).
    rewrite Hdata, Hcache, lookup_insert_eq in Hentry.
    apply ResetPasswordSerializer_validate_ok; [|done]. simpl.
    apply cache_lookup_Some. exists (clock w0 + 600)%Q. split; [|done].
    rewrite Hsame, Hdata, Hcache, lookup_insert_eq. congruence.
Qed.

Lemma consumed_token_stays_valid_witness :
  (cache Demo.registered = cache Demo.verified_register ∧
   ∀ t2, (t2 < 10 + 600)%Q →
     SignupSerializer.validate Demo.signup_data (at_time t2 Demo.registered)
     = (Ok Demo.signup_data, at_time t2 Demo.registered))
  ∧ (cache Demo.reset_done = cache Demo.verified_reset ∧
     ∀ t2, (t2 < 110 + 600)%Q →
       ResetPasswordSerializer.validate Demo.reset_data (at_time t2 Demo.reset_done)
       = (Ok Demo.reset_data, at_time t2 Demo.reset_done)).
Proof.
  split.
  - apply (proj1 (@consumed_token_stays_valid Demo.cyclic Demo.plain
             (mkOTPSubmission "a@x.com" "register" "123456")
             (at_time 10 Demo.pending)
             (fst (dispatch (@VerifyOTPView.post Demo.cyclic Demo.plain
                     (mkOTPSubmission "a@x.com" "register" "123456"))
                     (at_time 10 Demo.pending)))
             Demo.verified_register "token-0"
             eq_refl ltac:(vm_compute; reflexivity) ltac:(vm_compute; reflexivity))
           eq_refl 20%Q Demo.signup_data
           (fst (dispatch (@SignupView.post Demo.plain Demo.signup_data)
                   (at_time 20 Demo.verified_register)))
           Demo.registered eq_refl eq_refl ltac:(vm_compute; reflexivity)).
  - apply (proj2 (@consumed_token_stays_valid Demo.cyclic Demo.plain
             (mkOTPSubmission "a@x.com" "reset" "123456")
             (at_time 110 Demo.pending_reset)
             (fst (dispatch (@VerifyOTPView.post Demo.cyclic Demo.plain
                     (mkOTPSubmission "a@x.com" "reset" "123456"))
                     (at_time 110 Demo.pending_reset)))
             Demo.verified_reset "token-1"
             eq_refl ltac:(vm_compute; reflexivity) ltac:(vm_compute; reflexivity))
           eq_refl 120%Q Demo.reset_data
           (fst (dispatch (@ResetPasswordView.post Demo.plain Demo.reset_data)
                   (at_time 120 Demo.verified_reset)))
           Demo.reset_done eq_refl eq_refl ltac:(vm_compute; reflexivity)).
Defined.

(** * Further properties of the code *)

(** ** Keys *)

Lemma append_inv_head (p a b : string) : p +:+ a = p +:+ b → a = b.
Proof. induction p as [|c p IH]; simpl; [done|]. intros [= Heq]. auto. Qed.

Lemma otp_key_inj_email purpose email email' :
  otp_key purpose email = otp_key purpose email' → email = email'.
Proof.
  unfold otp_key. simpl. intros [= Heq].
  apply append_inv_head in Heq. by simplify_eq.
Qed.

Lemma otp_key_purposes email email' :
  otp_key "register" email ≠ otp_key "reset" email'.
Proof. unfold otp_key. simpl. intros [=]. Qed.

(** ** [generate_otp] *)

Lemma pretty_digit_is_digit (d : Z) :
  (0 ≤ d ≤ 9)%Z → ∃ c, pretty d = String c "" ∧ is_digit c = true.
Proof.
  intros Hd.
  assert (d = 0 ∨ d = 1 ∨ d = 2 ∨ d = 3 ∨ d = 4 ∨ d = 5 ∨ d = 6 ∨ d = 7
          ∨ d = 8 ∨ d = 9)%Z as Hcases by lia.
  repeat (destruct Hcases as [->|Hcases]; [eexists; split; reflexivity|]).
  subst. eexists; split; reflexivity.
Qed.

(** X1: [generate_otp(length)] always returns a text of exactly
    [length] characters, all of them decimal digits (leading zeros
    included); it draws [length] numbers and changes nothing else. *)
Theorem generate_otp_digits `{RandomSource} length w :
  ∃ code,
    generate_otp length w = (Ok code, set_rand_calls (rand_calls w + length) w) ∧
    String.length code = length ∧
    all_digits code = true.
Proof.
  revert w. induction length as [|n IH]; intros w.
  - exists "". repeat split. simpl. unfold mret, M_ret.
    destruct w. unfold set_rand_calls. simpl. by rewrite Nat.add_0_r.
  - destruct (IH (set_rand_calls (S (rand_calls w)) w))
      as (rest & Hrest & Hlen & Hdig).
    destruct (pretty_digit_is_digit (0 + rand_raw (rand_calls w) `mod` (9 - 0 + 1))%Z)
      as (c & Hc & Hcd).
    { pose proof (Z.mod_pos_bound (rand_raw (rand_calls w)) (9 - 0 + 1) eq_refl).
      lia. }
    exists (String c rest). split; [|split].
    + cbn [generate_otp]. rewrite (bind_Ok _ _ _ _ _ (randint_run 0 9 w)).
      rewrite (bind_Ok _ _ _ _ _ Hrest). unfold mret, M_ret.
      rewrite Hc. simpl. unfold set_rand_calls. simpl.
      by rewrite Nat.add_succ_r.
    + simpl. by rewrite Hlen.
    + simpl. by rewrite Hcd, Hdig.
Qed.

(** ** [send_otp_email] *)

(** X2: [send_otp_email] always succeeds; the code it returns is the
    one that [cache.get] now finds under [otp:{purpose}:{email}] and the
    one quoted in the single message it sends, addressed to [email]
    only; no other cache entry and no user row is touched. *)
Theorem send_otp_email_delivers_stored_code `{RandomSource} email purpose w :
  ∃ code w',
    send_otp_email email purpose w = (Ok code, w') ∧
    cache_lookup (cache w') (clock w') (otp_key purpose email) = Some code ∧
    outbox w' = (outbox w ++
      [mkMail ("Your " +:+ capitalize purpose +:+ " OTP Code")
         ("Your OTP code is: " +:+ code +:+ ". It is valid for 5 minutes.")
         "webmaster@localhost" [email]])%list ∧
    users w' = users w ∧
    ∀ key, key ≠ otp_key purpose email → cache w' !! key = cache w !! key.
Proof.
  destruct (send_otp_email_run email purpose w) as (code & Hlen & Hrun).
  eexists code, _. split; [exact Hrun|]. simpl. repeat split.
  - apply cache_lookup_Some. exists (clock w + 300)%Q.
    split; [apply lookup_insert_eq | lra].
  - intros key Hkey. by rewrite lookup_insert_ne.
Qed.

Lemma send_otp_email_delivers_stored_code_witness :
  ∃ code w',
    @send_otp_email Demo.cyclic "a@x.com" "register" Demo.empty_world
      = (Ok code, w') ∧
    cache_lookup (cache w') (clock w') (otp_key "register" "a@x.com") = Some code ∧
    outbox w' = (outbox Demo.empty_world ++
      [mkMail ("Your " +:+ capitalize "register" +:+ " OTP Code")
         ("Your OTP code is: " +:+ code +:+ ". It is valid for 5 minutes.")
         "webmaster@localhost" ["a@x.com"]])%list ∧
    users w' = users Demo.empty_world ∧
    ∀ key, key ≠ otp_key "register" "a@x.com" →
           cache w' !! key = cache Demo.empty_world !! key.
Proof.
  apply (@send_otp_email_delivers_stored_code Demo.cyclic "a@x.com" "register"
           Demo.empty_world).
Defined.

(** X3: once 300 seconds have passed since the request, the code is
    refused, like any other, and the store is left as it is. *)
Theorem otp_expires_after_300_seconds `{RandomSource}
    email purpose w0 code w1 w guess :
  send_otp_email email purpose w0 = (Ok code, w1) →
  cache w !! otp_key purpose email = cache w1 !! otp_key purpose email →
  (clock w0 + 300 <= clock w)%Q →
  verify_otp email guess purpose w = (Ok false, w).
Proof.
  intros Hsend Hkept Hlate.
  apply send_otp_email_inv in Hsend as (code' & [= <-] & _ & Hcache & _ & _).
  rewrite Hcache, lookup_insert_eq in Hkept.
  apply verify_otp_failure.
  destruct (cache_lookup (cache w) (clock w) (otp_key purpose email)) as [v|] eqn:E;
    [|done].
  apply cache_lookup_Some in E as (e & Hentry & Hlt).
  rewrite Hkept in Hentry. simplify_eq. lra.
Qed.

Lemma otp_expires_after_300_seconds_witness :
  verify_otp "a@x.com" "123456" "register" (at_time 300 Demo.pending)
  = (Ok false, at_time 300 Demo.pending).
Proof.
  apply (@otp_expires_after_300_seconds Demo.cyclic "a@x.com" "register"
           Demo.empty_world "123456" Demo.pending (at_time 300 Demo.pending)
           "123456").
  - vm_compute. reflexivity.
  - reflexivity.
  - vm_compute. discriminate.
Defined.

(** X4: an OTP requested for one purpose does not verify under the
    other one: the two purposes use different keys for every e-mail. *)
Theorem otp_purposes_isolated `{RandomSource} email w0 code w1 t :
  (clock w0 <= t)%Q →
  (send_otp_email email "register" w0 = (Ok code, w1) →
   cache_lookup (cache w0) (clock w0) (otp_key "reset" email) = None →
   verify_otp email code "reset" (at_time t w1) = (Ok false, at_time t w1))
  ∧ (send_otp_email email "reset" w0 = (Ok code, w1) →
     cache_lookup (cache w0) (clock w0) (otp_key "register" email) = None →
     verify_otp email code "register" (at_time t w1) = (Ok false, at_time t w1)).
Proof.
  intros Ht. split; intros Hsend Hnone;
    apply send_otp_email_inv in Hsend as (code' & [= <-] & _ & Hcache & _ & _);
    apply verify_otp_failure; simpl;
    rewrite (cache_lookup_None_later _ (clock w0) t); try done;
    unfold cache_lookup in *; rewrite Hcache.
  - by rewrite lookup_insert_ne by apply otp_key_purposes.
  - by rewrite lookup_insert_ne by (symmetry; apply otp_key_purposes).
Qed.

Lemma otp_purposes_isolated_witness :
  verify_otp "a@x.com" "123456" "reset" (at_time 10 Demo.pending)
  = (Ok false, at_time 10 Demo.pending).
Proof.
  apply (proj1 (@otp_purposes_isolated Demo.cyclic "a@x.com" Demo.empty_world
                  "123456" Demo.pending 10%Q ltac:(vm_compute; discriminate))).
  - vm_compute. reflexivity.
  - reflexivity.
Defined.

(** X5: an OTP requested for one e-mail does not verify for another
    e-mail under the same purpose. *)
Theorem otp_bound_to_email `{RandomSource} email other purpose w0 code w1 t :
  send_otp_email email purpose w0 = (Ok code, w1) →
  other ≠ email →
  cache_lookup (cache w0) (clock w0) (otp_key purpose other) = None →
  (clock w0 <= t)%Q →
  verify_otp other code purpose (at_time t w1) = (Ok false, at_time t w1).
Proof.
  intros Hsend Hother Hnone Ht.
  apply send_otp_email_inv in Hsend as (code' & [= <-] & _ & Hcache & _ & _).
  apply verify_otp_failure. simpl.
  rewrite (cache_lookup_None_later _ (clock w0) t); try done.
  unfold cache_lookup in *. rewrite Hcache.
  rewrite lookup_insert_ne; [done|].
  intros Hk. apply otp_key_inj_email in Hk. congruence.
Qed.

Lemma otp_bound_to_email_witness :
  verify_otp "eve@x.com" "123456" "register" (at_time 10 Demo.pending)
  = (Ok false, at_time 10 Demo.pending).
Proof.
  apply (@otp_bound_to_email Demo.cyclic "a@x.com" "eve@x.com" "register"
           Demo.empty_world "123456" Demo.pending 10%Q).
  - vm_compute. reflexivity.
  - discriminate.
  - reflexivity.
  - vm_compute. discriminate.
Defined.

(** X6: [RequestOTPView.post] never looks at the user table or at the
    store: its answer is the same in any two worlds, so it does not
    tell whether the address has an account.  A request whose fields
    pass (an e-mail that the validator accepts, purpose register or
    reset) is answered 200 with a body that depends on the e-mail only,
    sends one message and leaves the table as it is; any other request
    is answered 400 with the field errors, and nothing is stored or
    sent. *)
Theorem request_otp_view_answers `{RandomSource} `{Django} request_data w :
  (∀ w2, fst (dispatch (RequestOTPView.post request_data) w)
         = fst (dispatch (RequestOTPView.post request_data) w2)) ∧
  (serializers.errors (RequestOTPSerializer.fields request_data) = [] →
   EmailValidator (or_email request_data) = true ∧
   (or_purpose request_data = "register" ∨ or_purpose request_data = "reset") ∧
   ∃ w',
     dispatch (RequestOTPView.post request_data) w
     = (mkResponse 200 (DDict [
          ("detail", DStr ("OTP has been sent to " +:+ or_email request_data
                           +:+ ". It is valid for 5 minutes."))]), w') ∧
     users w' = users w ∧
     length (outbox w') = S (length (outbox w))) ∧
  (serializers.errors (RequestOTPSerializer.fields request_data) ≠ [] →
   dispatch (RequestOTPView.post request_data) w
   = (mkResponse 400
        (DDict (serializers.errors (RequestOTPSerializer.fields request_data))), w)).
Proof.
  assert (∀ w1,
    serializers.errors (RequestOTPSerializer.fields request_data) = [] →
    ∃ w',
     dispatch (RequestOTPView.post request_data) w1
     = (mkResponse 200 (DDict [
          ("detail", DStr ("OTP has been sent to " +:+ or_email request_data
                           +:+ ". It is valid for 5 minutes."))]), w') ∧
     users w' = users w1 ∧
     length (outbox w') = S (length (outbox w1))) as Hrun.
  { intros w1 Hok.
    destruct (send_otp_email_run (or_email request_data) (or_purpose request_data) w1)
      as (code & _ & Hsend).
    eexists. split.
    - apply dispatch_Ok. unfold RequestOTPView.post. cbv zeta.
      unfold RequestOTPSerializer.is_valid, RequestOTPSerializer.to_internal_value.
      rewrite (bind_Ok _ _ _ _ _
                 (run_fields_ok (RequestOTPSerializer.fields request_data)
                    request_data w1 Hok)).
      rewrite (bind_Ok _ _ _ _ _ Hsend). reflexivity.
    - simpl. split; [done|]. rewrite length_app. simpl. lia. }
  split; [|split].
  - intros w2.
    destruct (decide (serializers.errors (RequestOTPSerializer.fields request_data) = []))
      as [Hok|Hbad].
    + destruct (Hrun w Hok) as (w1' & -> & _).
      by destruct (Hrun w2 Hok) as (w2' & -> & _).
    + by rewrite !RequestOTPView_post_invalid by done.
  - intros Hok. split; [|split; [|by apply Hrun]].
    + unfold RequestOTPSerializer.fields in Hok.
      apply errors_cons in Hok as (Hemail & _).
      by apply EmailField_ok in Hemail as (_ & ? & _).
    + unfold RequestOTPSerializer.fields in Hok.
      apply errors_cons in Hok as (_ & (Hpurpose & _)%errors_cons).
      unfold serializers.ChoiceField in Hpurpose.
      case_bool_decide as Hin; [|discriminate].
      apply elem_of_cons in Hin as [?|Hin]; [by left|].
      apply elem_of_cons in Hin as [?|Hin]; [by right|].
      by apply elem_of_nil in Hin.
  - apply RequestOTPView_post_invalid.
Qed.

Lemma request_otp_view_answers_witness :
  (∀ w2, fst (dispatch (@RequestOTPView.post Demo.cyclic Demo.plain
                          (mkOTPRequest "a@x.com" "register")) Demo.empty_world)
         = fst (dispatch (@RequestOTPView.post Demo.cyclic Demo.plain
                            (mkOTPRequest "a@x.com" "register")) w2)) ∧
  (serializers.errors
     (@RequestOTPSerializer.fields Demo.plain (mkOTPRequest "a@x.com" "register")) = [] →
   @EmailValidator Demo.plain "a@x.com" = true ∧
   ("register" = "register" ∨ "register" = "reset") ∧
   ∃ w',
     dispatch (@RequestOTPView.post Demo.cyclic Demo.plain
                 (mkOTPRequest "a@x.com" "register")) Demo.empty_world
     = (mkResponse 200 (DDict [
          ("detail", DStr ("OTP has been sent to " +:+ "a@x.com"
                           +:+ ". It is valid for 5 minutes."))]), w') ∧
     users w' = users Demo.empty_world ∧
     length (outbox w') = S (length (outbox Demo.empty_world))) ∧
  (serializers.errors
     (@RequestOTPSerializer.fields Demo.plain (mkOTPRequest "a@x.com" "register")) ≠ [] →
   dispatch (@RequestOTPView.post Demo.cyclic Demo.plain
               (mkOTPRequest "a@x.com" "register")) Demo.empty_world
   = (mkResponse 400
        (DDict (serializers.errors
                  (@RequestOTPSerializer.fields Demo.plain
                     (mkOTPRequest "a@x.com" "register")))), Demo.empty_world)).
Proof.
  apply (@request_otp_view_answers Demo.cyclic Demo.plain
           (mkOTPRequest "a@x.com" "register") Demo.empty_world).
Defined.

(** ** Creating accounts *)

Lemma setdefault_absent k v (kw : gmap string field_value) :
  kw !! k = None → setdefault k v kw = <[k := v]> kw.
Proof. unfold setdefault. by intros ->. Qed.

(** The row that [SignupSerializer.create] hands to [save]. *)
Lemma signup_row_fields `{Django} mail fn ln raw pk now :
  let u := with_id
             (pre_save true now
                (set_password
                   (User_new mail
                      (setdefault "is_superuser" (FBool false)
                         (setdefault "is_staff" (FBool false)
                            {[ "first_name" := FStr fn; "last_name" := FStr ln ]})))
                   raw)) pk in
  id u = Some pk ∧ email u = mail ∧ password u = make_password raw ∧
  first_name u = fn ∧ last_name u = ln ∧ role u = "job_seeker" ∧
  is_active u = true ∧ is_staff u = false ∧ is_superuser u = false ∧
  is_verified u = false.
Proof.
  rewrite (setdefault_absent "is_staff") by done.
  rewrite (setdefault_absent "is_superuser") by done.
  simpl. unfold kw_str, kw_bool. by simplify_map_eq.
Qed.

Lemma create_user_run `{Django} mail raw kw w :
  mail ≠ "" →
  users w !! normalize_email mail = None →
  UserManager.create_user mail raw kw w =
    (Ok (with_id
           (pre_save true (clock w)
              (set_password
                 (User_new (normalize_email mail)
                    (setdefault "is_superuser" (FBool false)
                       (setdefault "is_staff" (FBool false) kw))) raw))
           (Z.of_nat (size (users w)) + 1)),
     set_users
       (<[normalize_email mail :=
            with_id
              (pre_save true (clock w)
                 (set_password
                    (User_new (normalize_email mail)
                       (setdefault "is_superuser" (FBool false)
                          (setdefault "is_staff" (FBool false) kw))) raw))
              (Z.of_nat (size (users w)) + 1)]> (users w)) w).
Proof.
  intros Hne Hfree.
  unfold UserManager.create_user, UserManager._create_user. cbv zeta.
  rewrite bool_decide_eq_false_2 by done. unfold save, timezone_now. run.
  by rewrite Hfree.
Qed.

(** A signup that passes its fields and the token check. *)
Lemma SignupView_post_run `{Django} data w :
  serializers.errors (SignupSerializer.fields (users w) data) = [] →
  cache_lookup (cache w) (clock w)
    (verified_key "register" (su_verification_token data)) = Some (su_email data) →
  users w !! normalize_email (su_email data) = None →
  ∃ u,
    dispatch (SignupView.post data) w
    = (mkResponse 201 (DDict [
         ("user", DDict [
            ("id", DStr (LoginSerializer.str_id u));
            ("email", DStr (email u));
            ("first_name", DStr (first_name u));
            ("last_name", DStr (last_name u))]);
         ("refresh", DStr (refresh_for_user u));
         ("access", DStr (access_token u))]),
       set_users (<[normalize_email (su_email data) := u]> (users w)) w) ∧
    id u = Some (Z.of_nat (size (users w)) + 1)%Z ∧
    email u = normalize_email (su_email data) ∧
    password u = make_password (su_password data) ∧
    first_name u = su_first_name data ∧ last_name u = su_last_name data ∧
    role u = "job_seeker" ∧
    is_active u = true ∧ is_staff u = false ∧ is_superuser u = false ∧
    is_verified u = false.
Proof.
  intros Hfields Hget Hfree.
  destruct (SignupSerializer_fields_ok _ _ Hfields) as (Hne & _).
  pose proof (SignupSerializer_validate_ok data w Hget Hne) as Hv.
  eexists. split.
  - apply dispatch_Ok. unfold SignupView.post.
    rewrite SignupSerializer_is_valid_bind by done.
    rewrite (bind_Ok _ _ _ _ _ Hv). unfold SignupSerializer.create.
    rewrite (bind_Ok _ _ _ _ _ (create_user_run _ _ _ _ Hne Hfree)).
    reflexivity.
  - apply signup_row_fields.
Qed.

(** What a signup answered 201 has done, row included. *)
Lemma SignupView_post_inv `{Django} data w r w' :
  dispatch (SignupView.post data) w = (r, w') →
  (status r ≠ 201 ∧ w' = w)
  ∨ (status r = 201 ∧
     serializers.errors (SignupSerializer.fields (users w) data) = [] ∧
     cache_lookup (cache w) (clock w)
       (verified_key "register" (su_verification_token data)) = Some (su_email data) ∧
     users w !! normalize_email (su_email data) = None).
Proof.
  destruct (decide (serializers.errors (SignupSerializer.fields (users w) data) = []))
    as [Hfields|Hfields];
    [|rewrite SignupView_post_invalid by done; intros [= <- <-]; by left].
  unfold dispatch, SignupView.post.
  rewrite SignupSerializer_is_valid_bind by done.
  destruct (SignupSerializer.validate data w) as [rv wv] eqn:Hv.
  apply SignupSerializer_validate_inv in Hv as Hinv.
  destruct Hinv as (-> & [(-> & Hne & Hget)|[(-> & _)|(-> & _)]]);
    [|rewrite (bind_Raise _ _ _ _ _ Hv); intros [= <- <-]; by left..].
  rewrite (bind_Ok _ _ _ _ _ Hv).
  destruct (SignupSerializer.create data w) as [rc wc] eqn:Hc.
  unfold SignupSerializer.create in Hc.
  apply create_user_inv in Hc as Hinv.
  destruct Hinv as [(e & -> & ->)|(u & -> & Hfree & -> & Hu)].
  - rewrite (bind_Raise _ _ _ _ _ Hc). destruct e; intros [= <- <-]; by left.
  - rewrite (bind_Ok _ _ _ _ _ Hc). unfold mret, M_ret. intros [= <- <-].
    by right.
Qed.

(** ** Logging in *)

Lemma LoginView_post_run `{Django} attrs u w :
  users w !! lg_email attrs = Some u →
  user_check_password u (lg_password attrs) = true →
  is_active u = true →
  dispatch (LoginView.post attrs) w
  = (mkResponse 200 (DDict [
       ("user", DDict [
          ("id", DStr (LoginSerializer.str_id u));
          ("email", DStr (email u));
          ("first_name", DStr (first_name u));
          ("last_name", DStr (last_name u))]);
       ("refresh", DStr (refresh_for_user u));
       ("access", DStr (access_token u))]), w).
Proof.
  intros Hu Hpw Hon. apply dispatch_Ok.
  unfold LoginView.post, LoginSerializer.validate, authenticate,
    ModelBackend.authenticate, objects_get, LoginSerializer.create,
    ModelBackend.user_can_authenticate.
  run. rewrite Hu, Hpw, Hon. simpl. by rewrite Hon.
Qed.








(** X10: an account created by a signup can log in at once, with the
    e-mail as normalised and the password of the signup. *)
Theorem signup_then_login `{Django} data w r w' t :
  dispatch (SignupView.post data) w = (r, w') →
  status r = 201 →
  ∃ u,
    users w' !! normalize_email (su_email data) = Some u ∧
    dispatch (LoginView.post
                (mkLoginData (normalize_email (su_email data)) (su_password data)))
      (at_time t w')
    = (mkResponse 200 (DDict [
         ("user", DDict [
            ("id", DStr (LoginSerializer.str_id u));
            ("email", DStr (email u));
            ("first_name", DStr (first_name u));
            ("last_name", DStr (last_name u))]);
         ("refresh", DStr (refresh_for_user u));
         ("access", DStr (access_token u))]), at_time t w').
Proof.
  intros Hrun Hok.
  apply SignupView_post_inv in Hrun as Hinv.
  destruct Hinv as [(Hno & _)|(_ & Hne & Hget & Hfree)]; [done|].
  destruct (SignupView_post_run data w Hne Hget Hfree)
    as (u & Hrun' & _ & _ & Hpw & _ & _ & _ & Hon & _).
  rewrite Hrun' in Hrun. injection Hrun as <- <-.
  exists u. split; [simpl; apply lookup_insert_eq|].
  apply LoginView_post_run; simpl.
  - apply lookup_insert_eq.
  - unfold user_check_password. rewrite Hpw. apply check_make_password.
  - done.
Qed.

Lemma signup_then_login_witness :
  ∃ u,
    users Demo.registered !! "a@x.com" = Some u ∧
    dispatch (@LoginView.post Demo.plain (mkLoginData "a@x.com" "secret1"))
      (at_time 50 Demo.registered)
    = (mkResponse 200 (DDict [
         ("user", DDict [
            ("id", DStr (LoginSerializer.str_id u));
            ("email", DStr (email u));
            ("first_name", DStr (first_name u));
            ("last_name", DStr (last_name u))]);
         ("refresh", DStr (@refresh_for_user Demo.plain u));
         ("access", DStr (@access_token Demo.plain u))]),
       at_time 50 Demo.registered).
Proof.
  apply (@signup_then_login Demo.plain Demo.signup_data
           (at_time 20 Demo.verified_register)
           (fst (dispatch (@SignupView.post Demo.plain Demo.signup_data)
                   (at_time 20 Demo.verified_register)))
           Demo.registered 50%Q).
  - reflexivity.
  - vm_compute. reflexivity.
Defined.

(** ** Resetting a password *)

Lemma ResetPasswordView_post_run `{Django} data u w :
  table_ok (users w) →
  serializers.errors (ResetPasswordSerializer.fields data) = [] →
  cache_lookup (cache w) (clock w)
    (verified_key "reset" (rs_verification_token data)) = Some (rs_email data) →
  users w !! rs_email data = Some u →
  dispatch (ResetPasswordView.post data) w
  = (mkResponse 200
       (DDict [("detail", DStr "Password has been reset successfully.")]),
     set_users (<[rs_email data
                  := pre_save false (clock w) (set_password u (rs_new_password data))]>
                  (users w)) w).
Proof.
  intros Htable Hfields Hget Hu.
  destruct (ResetPasswordSerializer_fields_ok data Hfields) as (Hne & _ & _).
  pose proof (ResetPasswordSerializer_validate_ok data w Hget Hne) as Hv.
  pose proof (ResetPasswordSerializer_save_run data u w Htable Hu) as Hs.
  apply dispatch_Ok. unfold ResetPasswordView.post.
  rewrite ResetPasswordSerializer_is_valid_bind by done.
  rewrite (bind_Ok _ _ _ _ _ Hv). by rewrite (bind_Ok _ _ _ _ _ Hs).
Qed.

(** A reset answered 200 found a row. *)
Lemma ResetPasswordView_post_found `{Django} data w r w' :
  dispatch (ResetPasswordView.post data) w = (r, w') →
  status r = 200 →
  is_Some (users w !! rs_email data).
Proof.
  intros Hrun Hok.
  apply ResetPasswordView_post_done in Hrun as Hdone; [|done].
  destruct Hdone as (Hne & Hget & _).
  pose proof (ResetPasswordView_post_done_fields data w r w' Hrun Hok) as Hfields.
  destruct (users w !! rs_email data) as [u|] eqn:Hu; [eauto|].
  pose proof (ResetPasswordSerializer_validate_ok data w Hget Hne) as Hv.
  assert (dispatch (ResetPasswordView.post data) w
          = (mkResponse 400 (DDict [("email", DStr "No user found with this email.")]),
             w)) as Hfail.
  { apply dispatch_ValidationError. unfold ResetPasswordView.post.
    rewrite ResetPasswordSerializer_is_valid_bind by done.
    rewrite (bind_Ok _ _ _ _ _ Hv). erewrite bind_Raise; [done|].
    unfold ResetPasswordSerializer.save, objects_get. cbv zeta.
    unfold mbind at 1. unfold M_bind, gets. by rewrite Hu. }
  rewrite Hfail in Hrun. by simplify_eq.
Qed.

(** X11: after a successful reset, an active account logs in with the
    new password. *)
Theorem reset_then_login `{Django} data w r w' u t :
  table_ok (users w) →
  dispatch (ResetPasswordView.post data) w = (r, w') →
  status r = 200 →
  users w !! rs_email data = Some u →
  is_active u = true →
  status (fst (dispatch (LoginView.post
                           (mkLoginData (rs_email data) (rs_new_password data)))
                 (at_time t w'))) = 200.
Proof.
  intros Htable Hrun Hok Hu Hon.
  apply ResetPasswordView_post_done in Hrun as Hdone; [|done].
  destruct Hdone as (Hne & Hget & _).
  pose proof (ResetPasswordView_post_done_fields data w r w' Hrun Hok) as Hfields.
  rewrite (ResetPasswordView_post_run data u w) in Hrun by done.
  injection Hrun as <- <-.
  rewrite (LoginView_post_run _
             (pre_save false (clock w) (set_password u (rs_new_password data))));
    simpl.
  - done.
  - apply lookup_insert_eq.
  - unfold user_check_password. simpl. apply check_make_password.
  - done.
Qed.

Lemma reset_then_login_witness :
  status (fst (dispatch (@LoginView.post Demo.plain (mkLoginData "a@x.com" "secret2"))
                 (at_time 130 Demo.reset_done))) = 200.
Proof.
  apply (@reset_then_login Demo.plain Demo.reset_data
           (at_time 120 Demo.verified_reset)
           (fst (dispatch (@ResetPasswordView.post Demo.plain Demo.reset_data)
                   (at_time 120 Demo.verified_reset)))
           Demo.reset_done Demo.ada 130%Q).
  - apply (bool_decide_unpack _). vm_compute. exact I.
  - reflexivity.
  - vm_compute. reflexivity.
  - vm_compute. reflexivity.
  - reflexivity.
Defined.

(** X12: a successful reset rewrites one row and nothing else: the
    row's hash becomes the hash of the new password and its
    [updated_at] the time of the request ([auto_now]); every other
    column of the row keeps its value, and the other rows, the cache
    and the outbox are as before (no message is sent). *)
Theorem reset_changes_hash_and_updated_at `{Django} data w r w' :
  table_ok (users w) →
  dispatch (ResetPasswordView.post data) w = (r, w') →
  status r = 200 →
  (∃ u u',
     users w !! rs_email data = Some u ∧
     users w' !! rs_email data = Some u' ∧
     password u' = make_password (rs_new_password data) ∧
     updated_at u' = Some (clock w) ∧
     id u' = id u ∧ email u' = email u ∧
     first_name u' = first_name u ∧ last_name u' = last_name u ∧
     role u' = role u ∧ is_active u' = is_active u ∧
     is_staff u' = is_staff u ∧ is_superuser u' = is_superuser u ∧
     is_verified u' = is_verified u ∧
     otp u' = otp u ∧ otp_created_at u' = otp_created_at u ∧
     created_at u' = created_at u) ∧
  (∀ other, other ≠ rs_email data → users w' !! other = users w !! other) ∧
  cache w' = cache w ∧ outbox w' = outbox w.
Proof.
  intros Htable Hrun Hok.
  apply ResetPasswordView_post_done in Hrun as Hdone; [|done].
  destruct Hdone as (Hne & Hget & _).
  pose proof (ResetPasswordView_post_done_fields data w r w' Hrun Hok) as Hfields.
  destruct (ResetPasswordView_post_found data w r w' Hrun Hok) as [u Hu].
  rewrite (ResetPasswordView_post_run data u w) in Hrun by done.
  injection Hrun as <- <-. simpl. split; [|split; [|done]].
  - exists u, (pre_save false (clock w) (set_password u (rs_new_password data))).
    split; [done|]. split; [apply lookup_insert_eq | done].
  - intros other Hother. by rewrite lookup_insert_ne.
Qed.

Lemma reset_changes_hash_and_updated_at_witness :
  (∃ u u',
     users (at_time 120 Demo.verified_reset) !! "a@x.com" = Some u ∧
     users Demo.reset_done !! "a@x.com" = Some u' ∧
     password u' = "plain$secret2" ∧
     updated_at u' = Some 120%Q ∧
     id u' = id u ∧ email u' = email u ∧
     first_name u' = first_name u ∧ last_name u' = last_name u ∧
     role u' = role u ∧ is_active u' = is_active u ∧
     is_staff u' = is_staff u ∧ is_superuser u' = is_superuser u ∧
     is_verified u' = is_verified u ∧
     otp u' = otp u ∧ otp_created_at u' = otp_created_at u ∧
     created_at u' = created_at u) ∧
  (∀ other, other ≠ "a@x.com" →
     users Demo.reset_done !! other
     = users (at_time 120 Demo.verified_reset) !! other) ∧
  cache Demo.reset_done = cache (at_time 120 Demo.verified_reset) ∧
  outbox Demo.reset_done = outbox (at_time 120 Demo.verified_reset).
Proof.
  apply (@reset_changes_hash_and_updated_at Demo.plain Demo.reset_data
           (at_time 120 Demo.verified_reset)
           (fst (dispatch (@ResetPasswordView.post Demo.plain Demo.reset_data)
                   (at_time 120 Demo.verified_reset)))
           Demo.reset_done).
  - apply (bool_decide_unpack _). vm_compute. exact I.
  - reflexivity.
  - vm_compute. reflexivity.
Defined.

(** ** Signup is all or nothing *)

(** X13: a signup that is not answered 201 leaves the world exactly as
    it was; one that is answered 201 adds one row, under the normalised
    e-mail, and touches no other row, no cache entry and no mail. *)
Theorem signup_all_or_nothing `{Django} data w r w' :
  dispatch (SignupView.post data) w = (r, w') →
  (status r ≠ 201 → w' = w) ∧
  (status r = 201 →
   size (users w') = S (size (users w)) ∧
   is_Some (users w' !! normalize_email (su_email data)) ∧
   (∀ other, other ≠ normalize_email (su_email data) →
      users w' !! other = users w !! other) ∧
   cache w' = cache w ∧ outbox w' = outbox w).
Proof.
  intros Hrun. apply SignupView_post_inv in Hrun as Hinv.
  destruct Hinv as [(Hno & ->)|(Hok & Hne & Hget & Hfree)]; [done|].
  split; [done|]. intros _.
  destruct (SignupView_post_run data w Hne Hget Hfree) as (u & Hrun' & _).
  rewrite Hrun' in Hrun. injection Hrun as <- <-. simpl. repeat split.
  - by apply map_size_insert_None.
  - rewrite lookup_insert_eq. eauto.
  - intros other Hother. by rewrite lookup_insert_ne.
Qed.

Lemma signup_all_or_nothing_witness :
  (status (fst (dispatch (@SignupView.post Demo.plain Demo.signup_data)
                  (at_time 20 Demo.verified_register))) ≠ 201 →
   Demo.registered = at_time 20 Demo.verified_register) ∧
  (status (fst (dispatch (@SignupView.post Demo.plain Demo.signup_data)
                  (at_time 20 Demo.verified_register))) = 201 →
   size (users Demo.registered)
   = S (size (users (at_time 20 Demo.verified_register))) ∧
   is_Some (users Demo.registered !! "a@x.com") ∧
   (∀ other, other ≠ "a@x.com" →
      users Demo.registered !! other
      = users (at_time 20 Demo.verified_register) !! other) ∧
   cache Demo.registered = cache (at_time 20 Demo.verified_register) ∧
   outbox Demo.registered = outbox (at_time 20 Demo.verified_register)).
Proof.
  apply (@signup_all_or_nothing Demo.plain Demo.signup_data
           (at_time 20 Demo.verified_register)
           (fst (dispatch (@SignupView.post Demo.plain Demo.signup_data)
                   (at_time 20 Demo.verified_register)))
           Demo.registered).
  reflexivity.
Defined.

(** What the [email] field of a signup answers once the address has a
    row. *)
Lemma EmailField_taken `{Django} queryset queryset' value u :
  serializers.EmailField (Some 254%nat) [serializers.UniqueValidator queryset] value = [] →
  queryset' !! value = Some u →
  serializers.EmailField (Some 254%nat) [serializers.UniqueValidator queryset'] value
  = ["user with this email address already exists."].
Proof.
  unfold serializers.EmailField. case_bool_decide as Hblank; [discriminate|].
  intros [_ [Hlen Hsyntax]%app_eq_nil]%app_eq_nil Hrow.
  rewrite Hlen, Hsyntax. simpl. unfold serializers.UniqueValidator.
  by rewrite Hrow.
Qed.

Lemma errors_cons_failed name message fields :
  serializers.errors ((name, [message]) :: fields)
  = (name, DList [DStr message]) :: serializers.errors fields.
Proof. done. Qed.

(** X26: a signup answered 201 cannot be repeated: although its token
    stays in the store, the same request sent again (for an address
    that normalisation leaves as it is) is refused by the unique
    validator of the [email] field, with a 400 that names the field,
    and the world is left as it was. *)
Theorem signup_replay_refused `{Django} data w r w' t :
  dispatch (SignupView.post data) w = (r, w') →
  status r = 201 →
  normalize_email (su_email data) = su_email data →
  dispatch (SignupView.post data) (at_time t w')
  = (mkResponse 400
       (DDict [("email", DList [DStr "user with this email address already exists."])]),
     at_time t w').
Proof.
  intros Hrun Hok Hnorm.
  apply SignupView_post_inv in Hrun as Hinv.
  destruct Hinv as [(Hno & _)|(_ & Hfields & Hget & Hfree)]; [done|].
  destruct (SignupView_post_run data w Hfields Hget Hfree) as (u & Hrun' & _).
  rewrite Hrun' in Hrun. injection Hrun as <- <-.
  set (w1 := at_time t (set_users (<[normalize_email (su_email data) := u]> (users w)) w)).
  assert (serializers.errors (SignupSerializer.fields (users w1) data)
          = [("email", DList [DStr "user with this email address already exists."])])
    as Herrors.
  { change (users w1) with (<[normalize_email (su_email data) := u]> (users w)).
    unfold SignupSerializer.fields in *.
    apply errors_cons in Hfields as (Hemail & Hrest).
    rewrite (EmailField_taken (users w) _ (su_email data) u Hemail)
      by (rewrite Hnorm; apply lookup_insert_eq).
    by rewrite errors_cons_failed, Hrest. }
  rewrite SignupView_post_invalid; by rewrite Herrors.
Qed.

Lemma signup_replay_refused_witness :
  dispatch (@SignupView.post Demo.plain Demo.signup_data) (at_time 30 Demo.registered)
  = (mkResponse 400
       (DDict [("email", DList [DStr "user with this email address already exists."])]),
     at_time 30 Demo.registered).
Proof.
  apply (@signup_replay_refused Demo.plain Demo.signup_data
           (at_time 20 Demo.verified_register)
           (fst (dispatch (@SignupView.post Demo.plain Demo.signup_data)
                   (at_time 20 Demo.verified_register)))
           Demo.registered 30%Q).
  - reflexivity.
  - vm_compute. reflexivity.
  - reflexivity.
Defined.

Lemma EmailField_ok_length `{Django} n validators value :
  serializers.EmailField (Some n) validators value = [] →
  (String.length value ≤ n)%nat.
Proof.
  unfold serializers.EmailField. case_bool_decide as Hblank; [discriminate|].
  intros [_ [Hlen _]%app_eq_nil]%app_eq_nil. simpl in Hlen.
  destruct (n <? String.length value)%nat eqn:E; [discriminate|].
  by apply Nat.ltb_ge in E.
Qed.

(** X27: a signup is answered 201 only for fields that pass their
    declared validation: an e-mail that the validator accepts, of at
    most 254 characters and without a row so far; names that are not
    blank and at most 30 characters long; a password of at least 6
    characters.  The row created carries these names. *)
Theorem signup_created_only_from_valid_fields `{Django} data w r w' :
  dispatch (SignupView.post data) w = (r, w') →
  status r = 201 →
  EmailValidator (su_email data) = true ∧
  (String.length (su_email data) ≤ 254)%nat ∧
  users w !! su_email data = None ∧
  su_first_name data ≠ "" ∧ (String.length (su_first_name data) ≤ 30)%nat ∧
  su_last_name data ≠ "" ∧ (String.length (su_last_name data) ≤ 30)%nat ∧
  (6 ≤ String.length (su_password data))%nat ∧
  ∃ u, users w' !! normalize_email (su_email data) = Some u ∧
       first_name u = su_first_name data ∧ last_name u = su_last_name data.
Proof.
  intros Hrun Hok.
  pose proof (SignupView_post_created_fields data w r w' Hrun Hok) as Hfields.
  apply SignupView_post_inv in Hrun as Hinv.
  destruct Hinv as [(Hno & _)|(_ & _ & Hget & Hfree)]; [done|].
  destruct (SignupView_post_run data w Hfields Hget Hfree)
    as (u & Hrun' & _ & _ & _ & Hfirst & Hlast & _).
  rewrite Hrun' in Hrun. injection Hrun as <- <-.
  destruct (SignupSerializer_fields_ok _ _ Hfields) as (_ & Hunique & _ & _ & Hpw & _).
  unfold SignupSerializer.fields in Hfields.
  apply errors_cons in Hfields as (Hemail & (Hfn & (Hln & _)%errors_cons)%errors_cons).
  pose proof (EmailField_ok_length _ _ _ Hemail) as Hlen.
  apply EmailField_ok in Hemail as (_ & Hsyntax & _).
  apply CharField_ok in Hfn as (Hfn & _ & Hfnlen).
  apply CharField_ok in Hln as (Hln & _ & Hlnlen).
  split; [done|]. split; [done|]. split; [done|].
  split; [done|]. split; [by apply Hfnlen|].
  split; [done|]. split; [by apply Hlnlen|]. split; [done|].
  exists u. split; [simpl; apply lookup_insert_eq | done].
Qed.

Lemma signup_created_only_from_valid_fields_witness :
  @EmailValidator Demo.plain (su_email Demo.signup_data) = true ∧
  (String.length (su_email Demo.signup_data) ≤ 254)%nat ∧
  users (at_time 20 Demo.verified_register) !! su_email Demo.signup_data = None ∧
  su_first_name Demo.signup_data ≠ "" ∧
  (String.length (su_first_name Demo.signup_data) ≤ 30)%nat ∧
  su_last_name Demo.signup_data ≠ "" ∧
  (String.length (su_last_name Demo.signup_data) ≤ 30)%nat ∧
  (6 ≤ String.length (su_password Demo.signup_data))%nat ∧
  ∃ u, users Demo.registered !! "a@x.com" = Some u ∧
       first_name u = su_first_name Demo.signup_data ∧
       last_name u = su_last_name Demo.signup_data.
Proof.
  apply (@signup_created_only_from_valid_fields Demo.plain Demo.signup_data
           (at_time 20 Demo.verified_register)
           (fst (dispatch (@SignupView.post Demo.plain Demo.signup_data)
                   (at_time 20 Demo.verified_register)))
           Demo.registered).
  - reflexivity.
  - vm_compute. reflexivity.
Defined.

(** ** The manager *)

Lemma setdefault_lookup_ne k k' v (kw : gmap string field_value) :
  k ≠ k' → setdefault k v kw !! k' = kw !! k'.
Proof.
  intros Hk. unfold setdefault. destruct (kw !! k); [done|].
  by rewrite lookup_insert_ne.
Qed.

Lemma kw_bool_setdefault k b (kw : gmap string field_value) :
  kw_bool (setdefault k (FBool b) kw) k b = kw_bool kw k b.
Proof.
  unfold kw_bool, setdefault. destruct (kw !! k) as [v|] eqn:E.
  - by rewrite E.
  - by rewrite lookup_insert_eq.
Qed.

(** X14: [create_user] refuses an empty e-mail with [ValueError] and a
    taken one with the integrity error, without touching the table;
    otherwise it stores one row under the normalised e-mail whose
    password verifies and whose [is_staff], [is_superuser] and
    [is_verified] are false unless the caller passed them. *)
Theorem create_user_outcomes `{Django} mail raw kw w :
  (mail = "" →
   UserManager.create_user mail raw kw w
   = (Raise (ValueError "The given email must be set"), w)) ∧
  (mail ≠ "" → is_Some (users w !! normalize_email mail) →
   UserManager.create_user mail raw kw w = (Raise IntegrityError, w)) ∧
  (mail ≠ "" → users w !! normalize_email mail = None →
   ∃ u,
     UserManager.create_user mail raw kw w
     = (Ok u, set_users (<[normalize_email mail := u]> (users w)) w) ∧
     email u = normalize_email mail ∧
     user_check_password u raw = true ∧
     is_staff u = kw_bool kw "is_staff" false ∧
     is_superuser u = kw_bool kw "is_superuser" false ∧
     is_verified u = kw_bool kw "is_verified" false).
Proof.
  split; [|split].
  - intros ->. unfold UserManager.create_user, UserManager._create_user.
    cbv zeta. by rewrite bool_decide_eq_true_2.
  - intros Hne [old Hold].
    unfold UserManager.create_user, UserManager._create_user. cbv zeta.
    rewrite bool_decide_eq_false_2 by done. unfold save. run. by rewrite Hold.
  - intros Hne Hfree. eexists. split; [by apply create_user_run|].
    unfold user_check_password. simpl. repeat split.
    + apply check_make_password.
    + unfold kw_bool at 1. rewrite setdefault_lookup_ne by done.
      apply kw_bool_setdefault.
    + rewrite kw_bool_setdefault. unfold kw_bool.
      by rewrite setdefault_lookup_ne by done.
    + unfold kw_bool. by rewrite !setdefault_lookup_ne by done.
Qed.

Lemma create_user_outcomes_witness :
  @UserManager.create_user Demo.plain "" "secret1" ∅ Demo.empty_world
  = (Raise (ValueError "The given email must be set"), Demo.empty_world) ∧
  @UserManager.create_user Demo.plain "a@x.com" "secret1" ∅ Demo.registered
  = (Raise IntegrityError, Demo.registered) ∧
  ∃ u,
    @UserManager.create_user Demo.plain "c@x.com" "secret1"
      {[ "is_verified" := FBool true ]} Demo.registered
    = (Ok u,
       set_users (<[@normalize_email Demo.plain "c@x.com" := u]>
                    (users Demo.registered)) Demo.registered) ∧
    email u = @normalize_email Demo.plain "c@x.com" ∧
    @user_check_password Demo.plain u "secret1" = true ∧
    is_staff u = kw_bool {[ "is_verified" := FBool true ]} "is_staff" false ∧
    is_superuser u = kw_bool {[ "is_verified" := FBool true ]} "is_superuser" false ∧
    is_verified u = kw_bool {[ "is_verified" := FBool true ]} "is_verified" false.
Proof.
  split; [|split].
  - apply (proj1 (@create_user_outcomes Demo.plain "" "secret1" ∅ Demo.empty_world)).
    reflexivity.
  - apply (proj1 (proj2 (@create_user_outcomes Demo.plain "a@x.com" "secret1" ∅
                           Demo.registered))).
    + discriminate.
    + vm_compute. eexists. reflexivity.
  - apply (proj2 (proj2 (@create_user_outcomes Demo.plain "c@x.com" "secret1"
                           {[ "is_verified" := FBool true ]} Demo.registered))).
    + discriminate.
    + reflexivity.
Defined.

Lemma setdefault_lookup_eq k v (kw : gmap string field_value) :
  setdefault k v kw !! k = Some (default v (kw !! k)).
Proof.
  unfold setdefault. destruct (kw !! k) eqn:E; simpl; [done|].
  apply lookup_insert_eq.
Qed.

Lemma is_not_True_false v :
  UserManager.is_not_True v = false ↔ v = Some (FBool true).
Proof. destruct v as [[?|[|]]|]; simpl; split; congruence. Qed.

(** X15: a row returned by [create_superuser] always has [is_staff] and
    [is_superuser] true; when the caller passes [is_staff=False] or
    [is_superuser=False] the call raises [ValueError]; and every
    failure leaves the world as it was. *)
Theorem create_superuser_flags `{Django} mail raw kw w r w' :
  UserManager.create_superuser mail raw kw w = (r, w') →
  match r with
  | Ok u =>
      is_staff u = true ∧ is_superuser u = true ∧
      users w' !! normalize_email mail = Some u
  | Raise e => w' = w
  end ∧
  (kw !! "is_staff" = Some (FBool false) →
   r = Raise (ValueError "Superuser must have is_staff=True.")) ∧
  (kw !! "is_superuser" = Some (FBool false) → ∃ msg, r = Raise (ValueError msg)).
Proof.
  unfold UserManager.create_superuser. cbv zeta.
  rewrite (setdefault_lookup_ne "is_superuser" "is_staff") by done.
  rewrite !setdefault_lookup_eq.
  rewrite (setdefault_lookup_ne "is_staff" "is_superuser") by done.
  destruct (UserManager.is_not_True (Some (default (FBool true) (kw !! "is_staff"))))
    eqn:Hstaff.
  { intros [= <- <-]. repeat split; eauto. }
  destruct (UserManager.is_not_True
              (Some (default (FBool true) (kw !! "is_superuser")))) eqn:Hsuper.
  { intros [= <- <-]. repeat split; [|eauto].
    intros Hf. rewrite Hf in Hstaff. done. }
  apply is_not_True_false in Hstaff, Hsuper.
  intros Hrun.
  assert (kw !! "is_staff" ≠ Some (FBool false)) as Hs.
  { intros Hf. rewrite Hf in Hstaff. done. }
  assert (kw !! "is_superuser" ≠ Some (FBool false)) as Hp.
  { intros Hf. rewrite Hf in Hsuper. done. }
  split; [|done]. revert Hrun.
  unfold UserManager._create_user. case_bool_decide; [by intros [= <- <-]|].
  unfold save. run.
  destruct (users w !! normalize_email mail) eqn:Hrow; intros [= <- <-]; [done|].
  simpl. unfold kw_bool.
  rewrite (setdefault_lookup_ne "is_superuser" "is_staff") by done.
  rewrite !setdefault_lookup_eq.
  rewrite (setdefault_lookup_ne "is_staff" "is_superuser") by done.
  destruct (kw !! "is_staff") as [v1|]; destruct (kw !! "is_superuser") as [v2|];
    simpl in *; simplify_eq; repeat split; apply lookup_insert_eq.
Qed.

Lemma create_superuser_flags_witness :
  match fst (@UserManager.create_superuser Demo.plain "root@x.com" "toor" ∅
               Demo.empty_world) with
  | Ok u =>
      is_staff u = true ∧ is_superuser u = true ∧
      users Demo.with_root !! @normalize_email Demo.plain "root@x.com" = Some u
  | Raise e => Demo.with_root = Demo.empty_world
  end.
Proof.
  apply (@create_superuser_flags Demo.plain "root@x.com" "toor" ∅
           Demo.empty_world
           (fst (@UserManager.create_superuser Demo.plain "root@x.com" "toor" ∅
                   Demo.empty_world))
           Demo.with_root).
  reflexivity.
Defined.

(** ** The table stays well formed *)

Lemma request_otp_frame `{RandomSource} `{Django} d w :
  ∃ w', snd (dispatch (RequestOTPView.post d) w) = w' ∧ users w' = users w.
Proof.
  destruct (decide (serializers.errors (RequestOTPSerializer.fields d) = []))
    as [Hfields|Hfields];
    [|rewrite RequestOTPView_post_invalid by done; by eexists].
  destruct (send_otp_email_run (or_email d) (or_purpose d) w) as (code & _ & Hrun).
  eexists. split; [reflexivity|].
  unfold dispatch, RequestOTPView.post. cbv zeta.
  unfold RequestOTPSerializer.is_valid, RequestOTPSerializer.to_internal_value.
  rewrite (bind_Ok _ _ _ _ _
             (run_fields_ok (RequestOTPSerializer.fields d) d w Hfields)).
  by rewrite (bind_Ok _ _ _ _ _ Hrun).
Qed.

Lemma login_frame `{Django} d w : snd (dispatch (LoginView.post d) w) = w.
Proof.
  unfold dispatch, LoginView.post.
  destruct (LoginSerializer.validate d w) as [rv wv] eqn:Hv.
  assert (wv = w) as ->.
  { revert Hv. unfold LoginSerializer.validate. cbv zeta.
    destruct (authenticate (lg_email d) (lg_password d) w) as [ra wa] eqn:Ha.
    apply authenticate_inv in Ha as Hinv. destruct Hinv as (-> & Hcases).
    destruct ra as [[u|]|e].
    - rewrite (bind_Ok _ _ _ _ _ Ha). destruct (negb (is_active u)); by intros [= <- <-].
    - rewrite (bind_Ok _ _ _ _ _ Ha). by intros [= <- <-].
    - rewrite (bind_Raise _ _ _ _ _ Ha). by intros [= <- <-]. }
  destruct rv as [vd|e].
  - by rewrite (bind_Ok _ _ _ _ _ Hv).
  - rewrite (bind_Raise _ _ _ _ _ Hv). by destruct e.
Qed.

Lemma table_ok_insert us key u :
  table_ok us → email u = key → is_Some (id u) → table_ok (<[key := u]> us).
Proof. intros Hok Hmail Hpk. by apply map_Forall_insert_2. Qed.

(** X16: every view keeps the user table well formed: after any
    request each row is still stored under its own e-mail and has a
    primary key. *)
Theorem views_keep_table_ok `{RandomSource} `{Django} w :
  table_ok (users w) →
  (∀ d, table_ok (users (snd (dispatch (RequestOTPView.post d) w)))) ∧
  (∀ d, table_ok (users (snd (dispatch (VerifyOTPView.post d) w)))) ∧
  (∀ d, table_ok (users (snd (dispatch (SignupView.post d) w)))) ∧
  (∀ d, table_ok (users (snd (dispatch (LoginView.post d) w)))) ∧
  (∀ d, table_ok (users (snd (dispatch (ResetPasswordView.post d) w)))).
Proof.
  intros Hok. split; [|split; [|split; [|split]]]; intros d.
  - destruct (request_otp_frame d w) as (w' & -> & ->). done.
  - destruct (dispatch (VerifyOTPView.post d) w) as [r w'] eqn:Hrun.
    apply VerifyOTPView_post_inv in Hrun
      as [(_ & ->)|(_ & _ & _ & _ & _ & Husers & _)]; simpl; [done|].
    by rewrite Husers.
  - destruct (dispatch (SignupView.post d) w) as [r w'] eqn:Hrun.
    apply SignupView_post_inv in Hrun as Hinv.
    destruct Hinv as [(_ & ->)|(_ & Hne & Hget & Hfree)]; [done|].
    destruct (SignupView_post_run d w Hne Hget Hfree)
      as (u & Hrun' & Hpk & Hmail & _).
    rewrite Hrun' in Hrun. injection Hrun as <- <-. simpl.
    apply table_ok_insert; [done|done|]. rewrite Hpk. eauto.
  - by rewrite login_frame.
  - destruct (ResetPasswordView.post d w) as [r w'] eqn:Hrun.
    assert (table_ok (users w')) as Hok'.
    { revert Hrun.
      destruct (decide (serializers.errors (ResetPasswordSerializer.fields d) = []))
        as [Hfields|Hfields].
      2: { unfold ResetPasswordView.post, ResetPasswordSerializer.is_valid.
           rewrite (bind_Raise _ _ _ _ _
                      (bind_Raise _ _ _ _ _
                         (run_fields_failed (ResetPasswordSerializer.fields d) d w
                            Hfields))).
           by intros [= <- <-]. }
      unfold ResetPasswordView.post.
      rewrite ResetPasswordSerializer_is_valid_bind by done.
      destruct (ResetPasswordSerializer.validate d w) as [rv wv] eqn:Hv.
      apply ResetPasswordSerializer_validate_inv in Hv as Hinv.
      destruct Hinv as (-> & [(-> & _)|[(-> & _)|(-> & _)]]);
        [|rewrite (bind_Raise _ _ _ _ _ Hv); by intros [= <- <-]..].
      rewrite (bind_Ok _ _ _ _ _ Hv).
      destruct (ResetPasswordSerializer.save d w) as [rs ws] eqn:Hs.
      assert (table_ok (users ws)) as Hws.
      { revert Hs. unfold ResetPasswordSerializer.save, objects_get. cbv zeta.
        unfold mbind at 1. unfold M_bind, gets.
        destruct (users w !! rs_email d); [by apply save_table_ok|].
        by intros [= <- <-]. }
      destruct rs as [u|e].
      - rewrite (bind_Ok _ _ _ _ _ Hs). by intros [= <- <-].
      - rewrite (bind_Raise _ _ _ _ _ Hs). by intros [= <- <-]. }
    unfold dispatch. rewrite Hrun. destruct r as [?|[]]; done.
Qed.

Lemma views_keep_table_ok_witness :
  (∀ d, table_ok (users (snd (dispatch (@RequestOTPView.post Demo.cyclic Demo.plain d)
                                Demo.registered)))) ∧
  (∀ d, table_ok (users (snd (dispatch (@VerifyOTPView.post Demo.cyclic Demo.plain d)
                                Demo.registered)))) ∧
  (∀ d, table_ok (users (snd (dispatch (@SignupView.post Demo.plain d)
                                Demo.registered)))) ∧
  (∀ d, table_ok (users (snd (dispatch (@LoginView.post Demo.plain d)
                                Demo.registered)))) ∧
  (∀ d, table_ok (users (snd (dispatch (@ResetPasswordView.post Demo.plain d)
                                Demo.registered)))).
Proof.
  apply (@views_keep_table_ok Demo.cyclic Demo.plain Demo.registered).
  apply (bool_decide_unpack _). vm_compute. exact I.
Defined.

(** ** The OTP kept on the row *)

Lemma older_than_300_false now created :
  older_than_300 now created = false ↔ (now - created <= 300)%Q.
Proof.
  unfold older_than_300. rewrite negb_false_iff. apply Qle_bool_iff.
Qed.

Lemma older_than_300_true now created :
  older_than_300 now created = true ↔ ¬ (now - created <= 300)%Q.
Proof.
  unfold older_than_300. rewrite negb_true_iff.
  rewrite <- Qle_bool_iff. by destruct (Qle_bool (now - created) 300).
Qed.

(** X17: a code stored by [set_otp] is reported valid by
    [is_otp_valid] up to and including 300 seconds after it was set
    and never afterwards; an empty code is never valid. *)
Theorem set_otp_valid_for_300_seconds u code w u' w' t :
  set_otp u code w = (Ok u', w') →
  otp u' = Some code ∧
  otp_created_at u' = Some (clock w) ∧
  users w' !! email u = Some u' ∧
  (code ≠ "" →
   (fst (is_otp_valid u' (at_time t w')) = Ok true ↔ (t - clock w <= 300)%Q)) ∧
  (code = "" → fst (is_otp_valid u' (at_time t w')) = Ok false).
Proof.
  unfold set_otp, timezone_now, save. run.
  assert (∀ v : User,
            otp v = Some code → otp_created_at v = Some (clock w) →
            (code ≠ "" →
             (fst (is_otp_valid v (at_time t w')) = Ok true ↔ (t - clock w <= 300)%Q)) ∧
            (code = "" → fst (is_otp_valid v (at_time t w')) = Ok false)) as Hvalid.
  { intros v Hcode Hat. unfold is_otp_valid, timezone_now. rewrite Hat, Hcode.
    split.
    - intros Hne. simpl. rewrite bool_decide_eq_false_2 by done. run.
      rewrite <- Qle_bool_iff.
      destruct (Qle_bool (t - clock w) 300); split; congruence.
    - intros ->. done. }
  destruct (id u) as [pk|] eqn:Hid.
  - intros [= <- <-]. simpl.
    split; [done|]. split; [done|]. split; [apply lookup_insert_eq|].
    by apply Hvalid.
  - destruct (users w !! email u) eqn:Hrow; intros [= <- <-]. simpl.
    split; [done|]. split; [done|]. split; [apply lookup_insert_eq|].
    by apply Hvalid.
Qed.

Lemma set_otp_valid_for_300_seconds_witness :
  otp (pre_save false 200 (with_otp Demo.ada (Some "424242") (Some 200%Q))) = Some "424242" ∧
  otp_created_at (pre_save false 200 (with_otp Demo.ada (Some "424242") (Some 200%Q)))
    = Some (clock (at_time 200 Demo.registered)) ∧
  users (snd (set_otp Demo.ada "424242" (at_time 200 Demo.registered)))
    !! email Demo.ada
    = Some (pre_save false 200 (with_otp Demo.ada (Some "424242") (Some 200%Q))) ∧
  ("424242" ≠ "" →
   (fst (is_otp_valid (pre_save false 200 (with_otp Demo.ada (Some "424242") (Some 200%Q)))
           (at_time 500 (snd (set_otp Demo.ada "424242"
                                (at_time 200 Demo.registered))))) = Ok true
    ↔ (500 - clock (at_time 200 Demo.registered) <= 300)%Q)) ∧
  ("424242" = "" →
   fst (is_otp_valid (pre_save false 200 (with_otp Demo.ada (Some "424242") (Some 200%Q)))
          (at_time 500 (snd (set_otp Demo.ada "424242"
                               (at_time 200 Demo.registered))))) = Ok false).
Proof.
  apply (set_otp_valid_for_300_seconds Demo.ada "424242"
           (at_time 200 Demo.registered)
           (pre_save false 200 (with_otp Demo.ada (Some "424242") (Some 200%Q)))
           (snd (set_otp Demo.ada "424242" (at_time 200 Demo.registered)))
           500%Q).
  reflexivity.
Defined.

(** ** [VerifyEmailView] and [ResendOTPView] *)

Lemma VerifyEmailView_post_unknown data w :
  users w !! ve_email data = None →
  dispatch (VerifyEmailView.post data) w
  = (mkResponse 400 (DStr "User with this email does not exist."), w).
Proof.
  intros Hu. apply dispatch_ValidationError.
  unfold VerifyEmailView.post, VerifyEmailSerializer.validate_email, objects_get.
  run. by rewrite Hu.
Qed.

Lemma VerifyEmailView_post_refusals data u w :
  users w !! ve_email data = Some u →
  (truthy (otp u) = false →
   dispatch (VerifyEmailView.post data) w
   = (mkResponse 400 (DDict [
        ("detail", DStr "No OTP generated for this user. Please request a new one.")]),
      w)) ∧
  (truthy (otp u) = true → py_eq (otp u) (ve_otp data) = false →
   dispatch (VerifyEmailView.post data) w
   = (mkResponse 400 (DDict [
        ("detail", DStr "Invalid OTP. Please check the code and try again.")]),
      w)) ∧
  (truthy (otp u) = true → py_eq (otp u) (ve_otp data) = true →
   ∀ created, otp_created_at u = Some created →
     older_than_300 (clock w) created = true →
     dispatch (VerifyEmailView.post data) w
     = (mkResponse 400 (DDict [
          ("detail", DStr "OTP has expired. Please request a new one.")]),
        w)).
Proof.
  intros Hu.
  unfold dispatch, VerifyEmailView.post, VerifyEmailSerializer.validate_email,
    objects_get, timezone_now.
  run. rewrite Hu. simpl. rewrite Hu. split; [|split].
  - by intros ->.
  - by intros -> ->.
  - intros -> -> created -> Hold. simpl. by rewrite Hold.
Qed.

Lemma VerifyEmailView_post_accepts data u w :
  table_ok (users w) →
  users w !! ve_email data = Some u →
  truthy (otp u) = true →
  py_eq (otp u) (ve_otp data) = true →
  (∀ created, otp_created_at u = Some created →
              older_than_300 (clock w) created = false) →
  dispatch (VerifyEmailView.post data) w
  = (mkResponse 200 (DDict [
       ("detail", DStr "Email verified successfully. You can now login.")]),
     set_users (<[ve_email data
                  := pre_save false (clock w)
                       (with_otp (with_is_verified u true) None None)]>
                  (users w)) w).
Proof.
  intros Htable Hu Hcode Heq Hfresh.
  destruct (Htable _ _ Hu) as [Hmail [pk Hpk]].
  unfold dispatch, VerifyEmailView.post, VerifyEmailSerializer.validate_email,
    objects_get, timezone_now, save.
  run. rewrite Hu. simpl. rewrite Hu, Hcode, Heq. simpl.
  destruct (otp_created_at u) as [created|] eqn:Hat.
  - rewrite (Hfresh created eq_refl). rewrite Hpk. simpl. by rewrite Hmail.
  - rewrite Hpk. simpl. by rewrite Hmail.
Qed.

Lemma verify_email_accepts_stored data u w :
  table_ok (users w) →
  users w !! ve_email data = Some u →
  otp u = Some (ve_otp data) →
  ve_otp data ≠ "" →
  (∀ created, otp_created_at u = Some created → (clock w - created <= 300)%Q) →
  ∃ w',
    dispatch (VerifyEmailView.post data) w
    = (mkResponse 200 (DDict [
         ("detail", DStr "Email verified successfully. You can now login.")]),
       w') ∧
    users w' !! ve_email data
    = Some (pre_save false (clock w) (with_otp (with_is_verified u true) None None)).
Proof.
  intros Htable Hu Hcode Hne Hfresh. eexists. split.
  - apply VerifyEmailView_post_accepts; try done.
    + rewrite Hcode. simpl. by rewrite bool_decide_eq_false_2.
    + rewrite Hcode. simpl. by rewrite bool_decide_eq_true_2.
    + intros created Hat. apply older_than_300_false. by apply Hfresh.
  - simpl. apply lookup_insert_eq.
Qed.

(** X18: when the submitted code is the non-empty code stored on the
    row and is not older than 300 seconds (or carries no date at all),
    [VerifyEmailView.post] answers 200, sets [is_verified] and clears
    the code; the same submission repeated is then refused with "No
    OTP generated": the code works once. *)
Theorem verify_email_works_once data u w :
  table_ok (users w) →
  users w !! ve_email data = Some u →
  otp u = Some (ve_otp data) →
  ve_otp data ≠ "" →
  (∀ created, otp_created_at u = Some created → (clock w - created <= 300)%Q) →
  ∃ w' u',
    dispatch (VerifyEmailView.post data) w
    = (mkResponse 200 (DDict [
         ("detail", DStr "Email verified successfully. You can now login.")]),
       w') ∧
    users w' !! ve_email data = Some u' ∧
    is_verified u' = true ∧ otp u' = None ∧ otp_created_at u' = None ∧
    password u' = password u ∧
    ∀ t,
      dispatch (VerifyEmailView.post data) (at_time t w')
      = (mkResponse 400 (DDict [
           ("detail",
            DStr "No OTP generated for this user. Please request a new one.")]),
         at_time t w').
Proof.
  intros Htable Hu Hcode Hne Hfresh.
  eexists _, (pre_save false (clock w) (with_otp (with_is_verified u true) None None)).
  split.
  - apply VerifyEmailView_post_accepts; try done.
    + rewrite Hcode. simpl. by rewrite bool_decide_eq_false_2.
    + rewrite Hcode. simpl. by rewrite bool_decide_eq_true_2.
    + intros created Hat. apply older_than_300_false. by apply Hfresh.
  - simpl. split; [apply lookup_insert_eq|]. repeat split.
    intros t.
    edestruct (VerifyEmailView_post_refusals data
                 (pre_save false (clock w)
                    (with_otp (with_is_verified u true) None None))) as (Hnone & _);
      [|apply Hnone; done].
    simpl. apply lookup_insert_eq.
Qed.

(** X19: on a well-formed table [VerifyEmailView.post] answers 200 or
    400, never 404 (the serializer has already refused an unknown
    e-mail), and every 400 leaves the world as it was: a wrong guess
    costs nothing and is not counted. *)
Theorem verify_email_refusals_change_nothing data w :
  table_ok (users w) →
  status (fst (dispatch (VerifyEmailView.post data) w)) = 200
  ∨ (status (fst (dispatch (VerifyEmailView.post data) w)) = 400 ∧
     snd (dispatch (VerifyEmailView.post data) w) = w).
Proof.
  intros Htable.
  destruct (users w !! ve_email data) as [u|] eqn:Hu.
  - destruct (VerifyEmailView_post_refusals data u w Hu) as (Hnone & Hbad & Hold).
    destruct (truthy (otp u)) eqn:Hcode; [|rewrite Hnone by done; by right].
    destruct (py_eq (otp u) (ve_otp data)) eqn:Heq;
      [|rewrite Hbad by done; by right].
    destruct (otp_created_at u) as [created|] eqn:Hat.
    + destruct (older_than_300 (clock w) created) eqn:Hage.
      * rewrite (Hold eq_refl eq_refl created) by done. by right.
      * rewrite (VerifyEmailView_post_accepts data u w); [by left|done..|].
        intros c Hc. rewrite Hat in Hc. by simplify_eq.
    + rewrite (VerifyEmailView_post_accepts data u w); [by left|done..|].
      intros c Hc. rewrite Hat in Hc. done.
  - rewrite VerifyEmailView_post_unknown by done. by right.
Qed.

Lemma verify_email_works_once_witness :
  ∃ w' u',
    dispatch (VerifyEmailView.post (mkVerifyEmailData "a@x.com" "424242"))
      (at_time 500 Demo.resent)
    = (mkResponse 200 (DDict [
         ("detail", DStr "Email verified successfully. You can now login.")]),
       w') ∧
    users w' !! "a@x.com" = Some u' ∧
    is_verified u' = true ∧ otp u' = None ∧ otp_created_at u' = None ∧
    password u' = password (pre_save false 200 (with_otp Demo.ada (Some "424242") (Some 200%Q))) ∧
    ∀ t,
      dispatch (VerifyEmailView.post (mkVerifyEmailData "a@x.com" "424242"))
        (at_time t w')
      = (mkResponse 400 (DDict [
           ("detail",
            DStr "No OTP generated for this user. Please request a new one.")]),
         at_time t w').
Proof.
  apply (verify_email_works_once (mkVerifyEmailData "a@x.com" "424242")
           (pre_save false 200 (with_otp Demo.ada (Some "424242") (Some 200%Q)))
           (at_time 500 Demo.resent)).
  - apply (bool_decide_unpack _). vm_compute. exact I.
  - vm_compute. reflexivity.
  - reflexivity.
  - discriminate.
  - intros created [= <-]. vm_compute. discriminate.
Defined.

Lemma verify_email_refusals_change_nothing_witness :
  status (fst (dispatch (VerifyEmailView.post (mkVerifyEmailData "a@x.com" "000000"))
                 (at_time 300 Demo.resent))) = 200
  ∨ (status (fst (dispatch
                    (VerifyEmailView.post (mkVerifyEmailData "a@x.com" "000000"))
                    (at_time 300 Demo.resent))) = 400 ∧
     snd (dispatch (VerifyEmailView.post (mkVerifyEmailData "a@x.com" "000000"))
            (at_time 300 Demo.resent)) = at_time 300 Demo.resent).
Proof.
  apply (verify_email_refusals_change_nothing
           (mkVerifyEmailData "a@x.com" "000000") (at_time 300 Demo.resent)).
  apply (bool_decide_unpack _). vm_compute. exact I.
Defined.

Lemma ResendOTPView_post_run code mail u w :
  table_ok (users w) →
  users w !! mail = Some u →
  is_verified u = false →
  dispatch (ResendOTPView.post code mail) w
  = (mkResponse 200 (DDict [
       ("detail", DStr "OTP resent successfully. Please check your email.")]),
     {| cache := cache w;
        users := <[mail := pre_save false (clock w)
                             (with_otp u (Some code) (Some (clock w)))]> (users w);
        outbox := outbox w ++
          [mkMail "Verify your email - Job Portal"
             ("Your new OTP is: " +:+ code +:+ newline +:+ newline
              +:+ "This OTP will expire in 5 minutes.")
             DEFAULT_FROM_EMAIL [mail]];
        clock := clock w;
        rand_calls := rand_calls w;
        uuid_calls := uuid_calls w |}).
Proof.
  intros Htable Hu Hflag.
  destruct (Htable _ _ Hu) as [Hmail [pk Hpk]].
  unfold dispatch, ResendOTPView.post, ResendOTPSerializer.validate_email,
    objects_get, timezone_now, save, send_mail.
  run. rewrite Hu. simpl. rewrite Hu, Hflag. simpl. rewrite Hpk. simpl.
  by rewrite Hmail.
Qed.

(** X20: [ResendOTPView.post] stores the new code on the row of an
    unverified account, dated now, and mails it to that account only;
    [VerifyEmailView.post] then accepts this code up to and including
    300 seconds later, marking the account verified, and answers "OTP
    has expired" after that. *)
Theorem resend_then_verify code mail u w :
  table_ok (users w) →
  users w !! mail = Some u →
  is_verified u = false →
  code ≠ "" →
  ∃ w1,
    dispatch (ResendOTPView.post code mail) w
    = (mkResponse 200 (DDict [
         ("detail", DStr "OTP resent successfully. Please check your email.")]),
       w1) ∧
    (∃ sent, outbox w1 = (outbox w ++ [sent])%list ∧ recipient_list sent = [mail]) ∧
    (∀ t, (t - clock w <= 300)%Q →
       ∃ w2 u2,
         dispatch (VerifyEmailView.post (mkVerifyEmailData mail code)) (at_time t w1)
         = (mkResponse 200 (DDict [
              ("detail", DStr "Email verified successfully. You can now login.")]),
            w2) ∧
         users w2 !! mail = Some u2 ∧ is_verified u2 = true ∧ otp u2 = None) ∧
    (∀ t, ¬ (t - clock w <= 300)%Q →
       dispatch (VerifyEmailView.post (mkVerifyEmailData mail code)) (at_time t w1)
       = (mkResponse 400 (DDict [
            ("detail", DStr "OTP has expired. Please request a new one.")]),
          at_time t w1)).
Proof.
  intros Htable Hu Hflag Hne.
  destruct (Htable _ _ Hu) as [Hmail Hpk].
  set (w1 := {| cache := cache w;
                users := <[mail := pre_save false (clock w)
                             (with_otp u (Some code) (Some (clock w)))]> (users w);
                outbox := outbox w ++
                  [mkMail "Verify your email - Job Portal"
                     ("Your new OTP is: " +:+ code +:+ newline +:+ newline
                      +:+ "This OTP will expire in 5 minutes.")
                     DEFAULT_FROM_EMAIL [mail]];
                clock := clock w;
                rand_calls := rand_calls w;
                uuid_calls := uuid_calls w |}).
  exists w1. split; [by apply ResendOTPView_post_run|].
  split; [eexists; split; reflexivity|].
  assert (table_ok (users w1)) as Htable'.
  { by apply table_ok_insert. }
  assert (∀ t, users (at_time t w1) !! mail
               = Some (pre_save false (clock w)
                         (with_otp u (Some code) (Some (clock w))))) as Hrow.
  { intros t. simpl. apply lookup_insert_eq. }
  split.
  - intros t Ht.
    destruct (verify_email_accepts_stored (mkVerifyEmailData mail code)
                (pre_save false (clock w) (with_otp u (Some code) (Some (clock w))))
                (at_time t w1))
      as (w2 & Hrun & Hrow2); try done.
    { intros created [= <-]. done. }
    eexists w2, _. split; [exact Hrun|]. split; [exact Hrow2|]. done.
  - intros t Ht.
    destruct (VerifyEmailView_post_refusals (mkVerifyEmailData mail code)
                (pre_save false (clock w) (with_otp u (Some code) (Some (clock w))))
                (at_time t w1) (Hrow t))
      as (_ & _ & Hold).
    apply (Hold ltac:(simpl; by rewrite bool_decide_eq_false_2)
                ltac:(simpl; by rewrite bool_decide_eq_true_2) (clock w) eq_refl).
    by apply older_than_300_true.
Qed.

Lemma resend_then_verify_witness :
  ∃ w1,
    dispatch (ResendOTPView.post "424242" "a@x.com") (at_time 200 Demo.registered)
    = (mkResponse 200 (DDict [
         ("detail", DStr "OTP resent successfully. Please check your email.")]),
       w1) ∧
    (∃ sent, outbox w1 = (outbox (at_time 200 Demo.registered) ++ [sent])%list ∧
             recipient_list sent = ["a@x.com"]) ∧
    (∀ t, (t - clock (at_time 200 Demo.registered) <= 300)%Q →
       ∃ w2 u2,
         dispatch (VerifyEmailView.post (mkVerifyEmailData "a@x.com" "424242"))
           (at_time t w1)
         = (mkResponse 200 (DDict [
              ("detail", DStr "Email verified successfully. You can now login.")]),
            w2) ∧
         users w2 !! "a@x.com" = Some u2 ∧ is_verified u2 = true ∧ otp u2 = None) ∧
    (∀ t, ¬ (t - clock (at_time 200 Demo.registered) <= 300)%Q →
       dispatch (VerifyEmailView.post (mkVerifyEmailData "a@x.com" "424242"))
         (at_time t w1)
       = (mkResponse 400 (DDict [
            ("detail", DStr "OTP has expired. Please request a new one.")]),
          at_time t w1)).
Proof.
  apply (resend_then_verify "424242" "a@x.com" Demo.ada (at_time 200 Demo.registered)).
  - apply (bool_decide_unpack _). vm_compute. exact I.
  - vm_compute. reflexivity.
  - reflexivity.
  - discriminate.
Defined.

(** X21: for an unknown e-mail and for an account that is already
    verified, [ResendOTPView.post] answers 400 and changes nothing: no
    code is stored and no message is sent. *)
Theorem resend_refusals code mail w :
  (users w !! mail = None →
   dispatch (ResendOTPView.post code mail) w
   = (mkResponse 400 (DStr "User with this email does not exist."), w)) ∧
  (∀ u, users w !! mail = Some u → is_verified u = true →
   dispatch (ResendOTPView.post code mail) w
   = (mkResponse 400 (DDict [
        ("detail", DStr "Email is already verified. No need to resend OTP.")]),
      w)).
Proof.
  unfold dispatch, ResendOTPView.post, ResendOTPSerializer.validate_email,
    objects_get.
  run. split.
  - by intros ->.
  - intros u Hu Hflag. rewrite Hu. simpl. by rewrite Hu, Hflag.
Qed.

Lemma resend_refusals_witness :
  dispatch (ResendOTPView.post "424242" "a@x.com") Demo.empty_world
  = (mkResponse 400 (DStr "User with this email does not exist."), Demo.empty_world).
Proof.
  apply (proj1 (resend_refusals "424242" "a@x.com" Demo.empty_world)).
  reflexivity.
Defined.

(** X22: the two flows meet on [is_verified]: an account created by
    [SignupView.post], whose e-mail was proved by the cached OTP, is
    still unverified for [ResendOTPView.post], which sends it a code
    instead of answering that the e-mail is already verified. *)
Theorem signup_account_is_unverified_for_resend `{Django} data w r w' code t :
  table_ok (users w) →
  dispatch (SignupView.post data) w = (r, w') →
  status r = 201 →
  fst (dispatch (ResendOTPView.post code (normalize_email (su_email data)))
         (at_time t w'))
  = mkResponse 200 (DDict [
      ("detail", DStr "OTP resent successfully. Please check your email.")]).
Proof.
  intros Htable Hrun Hok.
  apply SignupView_post_inv in Hrun as Hinv.
  destruct Hinv as [(Hno & _)|(_ & Hne & Hget & Hfree)]; [done|].
  destruct (SignupView_post_run data w Hne Hget Hfree)
    as (u & Hrun' & Hpk & Hmail & _ & _ & _ & _ & _ & _ & _ & Hflag).
  rewrite Hrun' in Hrun. injection Hrun as <- <-.
  rewrite (ResendOTPView_post_run code _ u); simpl; try done.
  - apply table_ok_insert; [done|done|]. rewrite Hpk. eauto.
  - apply lookup_insert_eq.
Qed.

Lemma signup_account_is_unverified_for_resend_witness :
  fst (dispatch (ResendOTPView.post "424242" (@normalize_email Demo.plain "a@x.com"))
         (at_time 200 Demo.registered))
  = mkResponse 200 (DDict [
      ("detail", DStr "OTP resent successfully. Please check your email.")]).
Proof.
  apply (@signup_account_is_unverified_for_resend Demo.plain Demo.signup_data
           (at_time 20 Demo.verified_register)
           (fst (dispatch (@SignupView.post Demo.plain Demo.signup_data)
                   (at_time 20 Demo.verified_register)))
           Demo.registered "424242" 200%Q).
  - apply (bool_decide_unpack _). vm_compute. exact I.
  - reflexivity.
  - vm_compute. reflexivity.
Defined.

(** ** [UserProfileUpdateSerializer.validate] *)

Lemma contains_false (attrs : gmap string data) key :
  UserProfileUpdateSerializer.contains attrs key = false ↔ attrs !! key = None.
Proof.
  unfold UserProfileUpdateSerializer.contains.
  rewrite bool_decide_eq_false, <- eq_None_not_Some. done.
Qed.

(** X23: a profile update of a job seeker is accepted exactly when it
    names none of the four company columns, one of an employer exactly
    when it names none of the four job-seeker columns, and one of any
    other role (admin, recruiter) always; an accepted update is
    returned unchanged. *)
Theorem profile_update_role_rules user attrs w :
  (role user = "job_seeker" →
   (UserProfileUpdateSerializer.validate user attrs w = (Ok attrs, w)
    ↔ attrs !! "company_name" = None ∧ attrs !! "company_size" = None ∧
      attrs !! "company_website" = None ∧ attrs !! "company_description" = None)) ∧
  (role user = "employer" →
   (UserProfileUpdateSerializer.validate user attrs w = (Ok attrs, w)
    ↔ attrs !! "resume" = None ∧ attrs !! "current_position" = None ∧
      attrs !! "education" = None ∧ attrs !! "experience_years" = None)) ∧
  (role user ≠ "job_seeker" → role user ≠ "employer" →
   UserProfileUpdateSerializer.validate user attrs w = (Ok attrs, w)).
Proof.
  unfold UserProfileUpdateSerializer.validate. split; [|split].
  - intros ->. rewrite bool_decide_eq_true_2 by done.
    rewrite <- !contains_false.
    destruct (UserProfileUpdateSerializer.contains attrs "company_name"),
      (UserProfileUpdateSerializer.contains attrs "company_size"),
      (UserProfileUpdateSerializer.contains attrs "company_website"),
      (UserProfileUpdateSerializer.contains attrs "company_description");
      simpl; unfold raise, mret, M_ret; split; (done || by intros (? & ? & ? & ?)).
  - intros ->. rewrite bool_decide_eq_false_2 by done.
    rewrite bool_decide_eq_true_2 by done.
    rewrite <- !contains_false.
    destruct (UserProfileUpdateSerializer.contains attrs "resume"),
      (UserProfileUpdateSerializer.contains attrs "current_position"),
      (UserProfileUpdateSerializer.contains attrs "education"),
      (UserProfileUpdateSerializer.contains attrs "experience_years");
      simpl; unfold raise, mret, M_ret; split; (done || by intros (? & ? & ? & ?)).
  - intros Hs He. by rewrite !bool_decide_eq_false_2 by done.
Qed.

Lemma profile_update_role_rules_witness :
  UserProfileUpdateSerializer.validate Demo.ada
    {[ "bio" := DStr "Analyst" ]} Demo.registered
  = (Ok {[ "bio" := DStr "Analyst" ]}, Demo.registered).
Proof.
  apply (proj1 (profile_update_role_rules Demo.ada {[ "bio" := DStr "Analyst" ]}
                  Demo.registered) eq_refl).
  repeat split; reflexivity.
Defined.

(** ** [get_profile_completion_percentage] *)

(** The float computation agrees with integer division for every count
    the method can meet. *)
Lemma percentage_exact (completed total : Z) :
  (total = 6 ∨ total = 9 ∨ total = 10)%Z →
  (0 ≤ completed ≤ total)%Z →
  percentage completed total = (100 * completed / total)%Z.
Proof.
  intros [-> | [-> | ->]] Hc.
  - assert (completed = 0 ∨ completed = 1 ∨ completed = 2 ∨ completed = 3
            ∨ completed = 4 ∨ completed = 5 ∨ completed = 6)%Z as Hcases by lia.
    repeat (destruct Hcases as [->|Hcases]; [vm_compute; reflexivity|]).
    subst. vm_compute. reflexivity.
  - assert (completed = 0 ∨ completed = 1 ∨ completed = 2 ∨ completed = 3
            ∨ completed = 4 ∨ completed = 5 ∨ completed = 6 ∨ completed = 7
            ∨ completed = 8 ∨ completed = 9)%Z as Hcases by lia.
    repeat (destruct Hcases as [->|Hcases]; [vm_compute; reflexivity|]).
    subst. vm_compute. reflexivity.
  - assert (completed = 0 ∨ completed = 1 ∨ completed = 2 ∨ completed = 3
            ∨ completed = 4 ∨ completed = 5 ∨ completed = 6 ∨ completed = 7
            ∨ completed = 8 ∨ completed = 9 ∨ completed = 10)%Z as Hcases by lia.
    repeat (destruct Hcases as [->|Hcases]; [vm_compute; reflexivity|]).
    subst. vm_compute. reflexivity.
Qed.

Lemma profile_fields_length u p :
  length (profile_fields u p) = 10 ∨ length (profile_fields u p) = 9
  ∨ length (profile_fields u p) = 6.
Proof.
  unfold profile_fields. repeat case_bool_decide; simpl; auto.
Qed.

Lemma profile_completion_formula u p :
  get_profile_completion_percentage u p
  = (100 * Z.of_nat (length (List.filter column_truthy (profile_fields u p)))
     / Z.of_nat (length (profile_fields u p)))%Z.
Proof.
  pose proof (List.filter_length_le column_truthy (profile_fields u p)) as Hle.
  unfold get_profile_completion_percentage. cbv zeta.
  destruct (profile_fields_length u p) as [Hlen|[Hlen|Hlen]];
    rewrite Hlen in *; apply percentage_exact; auto; lia.
Qed.

(** X24: the completion percentage is the whole part of 100 times the
    share of filled columns (the float arithmetic loses nothing); it
    lies between 0 and 100 and is 100 exactly when every counted
    column is filled. *)
Theorem profile_completion_exact u p :
  get_profile_completion_percentage u p
  = (100 * Z.of_nat (length (List.filter column_truthy (profile_fields u p)))
     / Z.of_nat (length (profile_fields u p)))%Z ∧
  (0 ≤ get_profile_completion_percentage u p ≤ 100)%Z ∧
  (get_profile_completion_percentage u p = 100%Z
   ↔ forallb column_truthy (profile_fields u p) = true).
Proof.
  pose proof (List.filter_length_le column_truthy (profile_fields u p)) as Hle.
  assert (length (List.filter column_truthy (profile_fields u p))
          = length (profile_fields u p)
          ↔ forallb column_truthy (profile_fields u p) = true) as Hall.
  { split; [apply List.filter_length_forallb|].
    intros Hf. clear Hle. induction (profile_fields u p) as [|c l IH]; [done|].
    simpl in *. apply andb_true_iff in Hf as [-> Hl]. simpl. by rewrite IH. }
  rewrite profile_completion_formula.
  destruct (profile_fields_length u p) as [Hlen|[Hlen|Hlen]];
    rewrite Hlen in *;
    try change (Z.of_nat 10%nat) with 10%Z; try change (Z.of_nat 9%nat) with 9%Z;
    try change (Z.of_nat 6%nat) with 6%Z;
    (split; [done|]);
    (split; [Z.to_euclidean_division_equations; lia|]);
    rewrite <- Hall; Z.to_euclidean_division_equations; lia.
Qed.

Lemma profile_completion_exact_witness :
  get_profile_completion_percentage Demo.ada Demo.novice
  = (100 * Z.of_nat (length (List.filter column_truthy
                               (profile_fields Demo.ada Demo.novice)))
     / Z.of_nat (length (profile_fields Demo.ada Demo.novice)))%Z ∧
  (0 ≤ get_profile_completion_percentage Demo.ada Demo.novice ≤ 100)%Z ∧
  (get_profile_completion_percentage Demo.ada Demo.novice = 100%Z
   ↔ forallb column_truthy (profile_fields Demo.ada Demo.novice) = true).
Proof. apply (profile_completion_exact Demo.ada Demo.novice). Defined.

(** X25: a job seeker who reports 0 years of experience never reaches
    100 per cent, whatever else is filled in: the number 0 counts as an
    empty column. *)
Theorem zero_experience_is_incomplete u p :
  role u = "job_seeker" →
  experience_years p = Some 0%Z →
  (get_profile_completion_percentage u p ≤ 90)%Z.
Proof.
  intros Hrole Hyears.
  rewrite profile_completion_formula.
  assert (length (profile_fields u p) = 10
          ∧ length (List.filter column_truthy (profile_fields u p)) <= 9)
    as [Hlen Hdone].
  { unfold profile_fields. rewrite Hrole, Hyears. simpl.
    split; [done|].
    repeat match goal with
           | |- context [if ?b then _ else _] => destruct b
           end; simpl; lia. }
  rewrite Hlen. change (Z.of_nat 10%nat) with 10%Z.
  Z.to_euclidean_division_equations. lia.
Qed.

Lemma zero_experience_is_incomplete_witness :
  (get_profile_completion_percentage Demo.ada Demo.novice ≤ 90)%Z.
Proof.
  apply (zero_experience_is_incomplete Demo.ada Demo.novice); reflexivity.
Defined.
